(** * RepoChat: a shallow embedding of [app.py]

    [app.py] is the Streamlit script of the application: one call of
    [create_app] is one script run.  The run reads the widget values,
    mutates [st.session_state], renders UI elements and, when a prompt
    was submitted, performs one chat turn.

    The embedding has three layers.
    - [Repo]: the repository registry and the content selector of
      [repo_service], which [app.py] imports.
    - [TokenCount]: the estimator of [token_count].
    - [App]: [StreamHandler], [refresh_repos] and [create_app], written in
      a small state/trace monad over the session state. *)

From Stdlib Require Import String List ZArith Bool Arith Lia.
Import ListNotations.
Local Open Scope string_scope.
Local Open Scope list_scope.

(** ** Chat messages

    A message is the dict [{"role": r, "content": c}]. *)
Record Message : Type := mkMessage { role : string; content : string }.

(** Concatenation of a list of texts, left to right. *)
Definition concat_all (l : list string) : string :=
  fold_right String.append EmptyString l.

(** [str(x)] of an optional text, as an f-string prints it. *)
Definition py_str (o : option string) : string :=
  match o with Some s => s | None => "None" end.

(** * Repository registry and content selector *)
Module Repo.

(** Modelled from the spec: the classes of [repo_service] are not under
    src/.  The spec's data model gives a repository a URL, a name and a
    set of known files, each with a path, a folder, a language and a
    size; [file_content] is the text read from the working copy. *)
Record RepoFile : Type := mkRepoFile {
  path : string;
  folder : string;
  language : string;
  size : nat;
  file_content : string
}.

Record RepoService : Type := mkRepoService {
  repo_url : string;
  repo_name : string;
  repo_files : list RepoFile
}.

(** Modelled from the spec: [RepoManager] is not under src/; the registry
    tracks the known repositories by URL. *)
Record RepoManager : Type := mkRepoManager {
  repos : list RepoService
}.

(** Modelled from the spec: [RepoManager.get_repo_urls] is not under
    src/; the spec gives [list()], the URLs of the known repositories. *)
Definition get_repo_urls (rm : RepoManager) : list string :=
  map repo_url (repos rm).

(** Modelled from the spec: [RepoManager.isEmpty] is not under src/; it
    is read as "no repository is known". *)
Definition isEmpty (rm : RepoManager) : bool :=
  match repos rm with [] => true | _ => false end.

(** Modelled from the spec: [RepoManager.get_repo_service] is not under
    src/; it is read as the lookup of the repository known under a URL. *)
Definition get_repo_service (url : option string) (rm : RepoManager)
  : option RepoService :=
  match url with
  | Some u => find (fun r => String.eqb (repo_url r) u) (repos rm)
  | None => None
  end.

(** Modelled from the spec: [RepoManager.check_if_repo_exists] is not
    under src/; the spec gives [exists(url) -> bool] over the set of
    known URLs.  A [None] selection names no repository. *)
Definition check_if_repo_exists (url : option string) (rm : RepoManager)
  : bool :=
  match get_repo_service url rm with Some _ => true | None => false end.

(** The registry with [r] known under its URL, and with a URL forgotten. *)
Definition register (r : RepoService) (rm : RepoManager) : RepoManager :=
  {| repos :=
       filter (fun r' => negb (String.eqb (repo_url r') (repo_url r)))
              (repos rm) ++ [r] |}.

Definition unregister (url : string) (rm : RepoManager) : RepoManager :=
  {| repos :=
       filter (fun r' => negb (String.eqb (repo_url r') url)) (repos rm) |}.

(** Modelled from the spec: [RepoManager.add_repo] is not under src/; the
    spec gives [add(url) -> success/failure], a failed clone reporting
    failure and leaving the registry as it was.  [git_clone] is the clone
    of the URL: the cloned repository, or [None] when the clone fails. *)
Definition add_repo (git_clone : string -> option RepoService)
           (url : string) (rm : RepoManager) : bool * RepoManager :=
  match git_clone url with
  | Some r => (true, register r rm)
  | None => (false, rm)
  end.

(** Modelled from the spec: [RepoService.update_repo] is not under src/;
    a repository is refreshed on update (re-pull) and the outcome is a
    boolean.  The registry holds the same object, so it sees the pull. *)
Definition update_repo (git_pull : RepoService -> option RepoService)
           (r : RepoService) (rm : RepoManager) : bool * RepoManager :=
  match git_pull r with
  | Some r' => (true, register r' rm)
  | None => (false, rm)
  end.

(** Modelled from the spec: [RepoService.delete_repo] is not under src/;
    a repository is removed on delete and the outcome is a boolean. *)
Definition delete_repo (remove_clone : RepoService -> bool)
           (r : RepoService) (rm : RepoManager) : bool * RepoManager :=
  if remove_clone r then (true, unregister (repo_url r) rm) else (false, rm).

(** *** Content selector *)

Definition in_selection (x : string) (sel : list string) : bool :=
  existsb (String.eqb x) sel.

(** One filter dimension: an empty selection imposes nothing. *)
Definition dimension_ok (sel : list string) (x : string) : bool :=
  match sel with
  | [] => true
  | _ :: _ => in_selection x sel
  end.

Definition file_matches (folders files languages : list string)
           (f : RepoFile) : bool :=
  dimension_ok folders (folder f)
  && dimension_ok files (path f)
  && dimension_ok languages (language f).

(** Whole files are taken, in order, while the cumulative size stays
    within [limit]; the first file that would exceed it ends the list. *)
Fixpoint take_within_limit (limit : Z) (used : nat) (fs : list RepoFile)
  : list RepoFile :=
  match fs with
  | [] => []
  | f :: rest =>
      if (Z.of_nat (used + size f) <=? limit)%Z
      then f :: take_within_limit limit (used + size f) rest
      else []
  end.

Definition total_size (fs : list RepoFile) : nat :=
  fold_right (fun f acc => size f + acc) 0 fs.

Section Selector.
(** The separator that identifies a file's path. *)
Variable file_header : string -> string.

Definition render_file (f : RepoFile) : string :=
  file_header (path f) ++ file_content f.

Definition matching_files (r : RepoService)
           (folders files languages : list string) : list RepoFile :=
  filter (file_matches folders files languages) (repo_files r).

Definition included_files (r : RepoService)
           (folders files languages : list string) (limit : Z)
  : list RepoFile :=
  take_within_limit limit 0 (matching_files r folders files languages).

(** Modelled from the spec: [RepoService.get_filtered_files] is not
    under src/ (only its two call sites are).  The spec's algorithm:
    enumerate the repository's files, keep a file when every non-empty
    dimension holds its folder, path or language, and concatenate the
    kept files' contents in enumeration order, each behind a separator
    naming its path, until the cumulative size would exceed the limit. *)
Definition get_filtered_files (r : RepoService)
           (selected_folders selected_files selected_languages : list string)
           (limit : Z) : string :=
  concat_all
    (map render_file
         (included_files r selected_folders selected_files
                         selected_languages limit)).
End Selector.

End Repo.

(** * Token estimator *)
Module TokenCount.

Section Estimator.
(** The fixed tokenization scheme and the fixed per-message overhead. *)
Variable Token : Type.
Variable encode : string -> list Token.
Variable tokens_per_message : nat.

(** Modelled from the spec: [token_count.num_tokens_from_string] is not
    under src/; the spec gives an integer estimate that is a function
    of the text under a fixed tokenization scheme. *)
Definition num_tokens_from_string (s : string) : nat :=
  List.length (encode s).

(** Modelled from the spec: [token_count.num_messages] is not under
    src/; the spec gives the per-message content estimates plus a fixed
    per-message overhead, accumulated over the list. *)
Definition num_messages (messages : list Message) : nat :=
  fold_left
    (fun num_tokens m =>
       num_tokens + tokens_per_message
       + num_tokens_from_string (content m))
    messages 0.
End Estimator.

End TokenCount.

(** * The Streamlit script *)
Module App.

(** ** External collaborators

    What [app.py] imports and does not define: the model client factory
    and its clients ([llm_service]), the tokenizer ([token_count]) and
    the version-control operations behind [repo_service].  They are
    assumed to return normally.  The completion of [Client.chat] is the
    finite sequence of [chunk.choices[0].delta.content] texts it yields;
    [MODELS] is taken to be non-empty, so the model select box always
    holds a model identifier. *)
Class Env : Type := {
  Client : Type;
  Temperature : Type;
  Token : Type;
  create_client_for_model : string -> Client;
  chat : Client -> list Message -> Temperature -> string -> list string;
  encode : string -> list Token;
  tokens_per_message : nat;
  file_header : string -> string;
  new_RepoManager : Repo.RepoManager;
  load_repos : Repo.RepoManager -> Repo.RepoManager;
  git_clone : string -> option Repo.RepoService;
  git_pull : Repo.RepoService -> option Repo.RepoService;
  remove_clone : Repo.RepoService -> bool
}.

(** ** Widget values of one script run

    The widget calls are taken to return a value: a run in which one of
    them raises (the file multi-select of lines 56-57, when its default
    is not among the options) is outside the model, and so is a
    completion that yields something else than text. *)
Record Inputs {E : Env} : Type := mkInputs {
  custom_repo_url : string;
  btn_add_custom_repository : bool;
  btn_refresh_repositories : bool;
  repo_url : option string;
  selected_folder : list string;
  selected_files : list string;
  selected_languages : list string;
  limit : Z;
  btn_count_tokens : bool;
  btn_update_repo : bool;
  btn_delete_repo : bool;
  selected_model : string;
  temperature : Temperature;
  system_prompt : string;
  btn_clear_chat : bool;
  prompt : option string
}.

(** How a run ends early. *)
Inductive Halt : Type :=
| Stop                      (* st.stop() *)
| Rerun                     (* st.rerun() *)
| KeyError (key : string).  (* read of an absent key *)

Inductive Outcome (A : Type) : Type :=
| Ret (a : A)
| Halted (h : Halt).
Arguments Ret {A} a.
Arguments Halted {A} h.

Section Script.
Context {E : Env}.

(** ** [st.session_state]

    Each key is absent ([None]) until the script stores it.  The key
    ["selected_model"] holds [None] or a model identifier. *)
Record SessionState : Type := mkSession {
  ss_repoManager : option Repo.RepoManager;
  ss_messages : option (list Message);
  ss_client : option Client;
  ss_selected_model : option (option string)
}.

Definition fresh_session : SessionState :=
  {| ss_repoManager := None; ss_messages := None;
     ss_client := None; ss_selected_model := None |}.

(** ** What a run renders and which collaborators it calls, in order.
    Logging is left out. *)
Inductive Event : Type :=
| st_title (text : string)
| st_success (text : string)
| st_error (text : string)
| st_info (text : string)
| st_write (text : string)
| st_write_total_tokens (n : nat)
| st_info_selection (files folder languages : list string) (lim : Z)
| st_chat_message (r c : string)
| container_markdown (text : string)
| sidebar_write_sending (files folder : list string)
| sidebar_write_total (n : nat)
| call_RepoManager
| call_load_repos
| call_add_repo (url : string)
| call_update_repo (url : string)
| call_delete_repo (url : string)
| call_get_filtered_files (url : string)
    (folders files languages : list string) (lim : Z)
| call_create_client_for_model (model : string)
| call_client_chat (c : Client) (msgs : list Message)
    (t : Temperature) (model : string).

(** ** The script monad: session state, trace, early exit *)
Definition Script (A : Type) : Type :=
  SessionState -> Outcome A * SessionState * list Event.

Definition ret {A} (a : A) : Script A := fun s => (Ret a, s, []).

Definition bind {A B} (m : Script A) (k : A -> Script B) : Script B :=
  fun s =>
    match m s with
    | (Ret a, s1, t1) =>
        match k a s1 with
        | (o, s2, t2) => (o, s2, t1 ++ t2)
        end
    | (Halted h, s1, t1) => (Halted h, s1, t1)
    end.

Definition emit (e : Event) : Script unit := fun s => (Ret tt, s, [e]).
Definition halt {A} (h : Halt) : Script A := fun s => (Halted h, s, []).
Definition get : Script SessionState := fun s => (Ret s, s, []).
Definition put (s' : SessionState) : Script unit :=
  fun _ => (Ret tt, s', []).
Definition when (b : bool) (m : Script unit) : Script unit :=
  if b then m else ret tt.
End Script.

Declare Scope script_scope.
Delimit Scope script_scope with script.
Notation "x <- m ;; k" := (bind m (fun x => k))
  (at level 61, m at next level, right associativity) : script_scope.
Notation "m ;; k" := (bind m (fun _ => k))
  (at level 61, right associativity) : script_scope.
Local Open Scope script_scope.

Section Session.
Context {E : Env}.

Definition is_absent {A} (o : option A) : bool :=
  match o with Some _ => false | None => true end.

Definition read_repoManager : Script Repo.RepoManager :=
  s <- get ;;
  match ss_repoManager s with
  | Some rm => ret rm
  | None => halt (KeyError "repoManager")
  end.

Definition read_messages : Script (list Message) :=
  s <- get ;;
  match ss_messages s with
  | Some l => ret l
  | None => halt (KeyError "messages")
  end.

Definition read_client : Script Client :=
  s <- get ;;
  match ss_client s with
  | Some c => ret c
  | None => halt (KeyError "client")
  end.

Definition read_selected_model : Script (option string) :=
  s <- get ;;
  match ss_selected_model s with
  | Some m => ret m
  | None => halt (KeyError "selected_model")
  end.

(** Assignments to one key. *)
Definition set_repoManager (rm : Repo.RepoManager) (s : SessionState)
  : SessionState :=
  {| ss_repoManager := Some rm; ss_messages := ss_messages s;
     ss_client := ss_client s;
     ss_selected_model := ss_selected_model s |}.

Definition set_messages (l : list Message) (s : SessionState)
  : SessionState :=
  {| ss_repoManager := ss_repoManager s; ss_messages := Some l;
     ss_client := ss_client s;
     ss_selected_model := ss_selected_model s |}.

Definition set_client (c : Client) (s : SessionState) : SessionState :=
  {| ss_repoManager := ss_repoManager s; ss_messages := ss_messages s;
     ss_client := Some c;
     ss_selected_model := ss_selected_model s |}.

Definition set_selected_model (m : option string) (s : SessionState)
  : SessionState :=
  {| ss_repoManager := ss_repoManager s; ss_messages := ss_messages s;
     ss_client := ss_client s; ss_selected_model := Some m |}.

Definition write_repoManager (rm : Repo.RepoManager) : Script unit :=
  s <- get ;; put (set_repoManager rm s).

Definition write_messages (l : list Message) : Script unit :=
  s <- get ;; put (set_messages l s).

Definition write_client (c : Client) : Script unit :=
  s <- get ;; put (set_client c s).

Definition write_selected_model (m : option string) : Script unit :=
  s <- get ;; put (set_selected_model m s).

(** [st.session_state.messages.append(m)] *)
Definition messages_append (m : Message) : Script unit :=
  l <- read_messages ;;
  write_messages (l ++ [m]).

(** [for x in l: body(x)] *)
Fixpoint for_each {A} (l : list A) (body : A -> Script unit)
  : Script unit :=
  match l with
  | [] => ret tt
  | x :: rest => body x ;; for_each rest body
  end.
End Session.

Section CreateApp.
Context {E : Env}.

(** ** [StreamHandler]

    The container is the [st.empty()] placeholder: it shows nothing
    until the first [markdown] call and then the text last rendered. *)
Record StreamHandler : Type := mkStreamHandler {
  container : option string;
  text : string
}.

Definition st_empty : option string := None.

(** [StreamHandler.__init__(container, initial_text)], the initial text
    defaulting to the empty text. *)
Definition StreamHandler_init (container : option string)
           (initial_text : string) : StreamHandler :=
  {| container := container; text := initial_text |}.

(** [self.text += token; self.container.markdown(self.text)] *)
Definition process_token (self : StreamHandler) (token : string)
  : Script StreamHandler :=
  let text' := (text self ++ token)%string in
  emit (container_markdown text') ;;
  ret {| container := Some text'; text := text' |}.

(** [for chunk in completion: stream_handler.process_token(content)] *)
Fixpoint consume (stream_handler : StreamHandler)
         (completion : list string) : Script StreamHandler :=
  match completion with
  | [] => ret stream_handler
  | content :: rest =>
      h <- process_token stream_handler content ;;
      consume h rest
  end.

(** ** [refresh_repos] *)
Definition refresh_repos : Script unit :=
  s <- get ;;
  when (is_absent (ss_repoManager s))
       (emit call_RepoManager ;; write_repoManager new_RepoManager) ;;
  rm <- read_repoManager ;;
  emit call_load_repos ;;
  write_repoManager (load_repos rm) ;;
  emit (st_success "Refreshed repositories").

(** ** [create_app], top to bottom *)

(** Lines 29-32: keys created on first use. *)
Definition init_session_state : Script unit :=
  s <- get ;;
  when (is_absent (ss_repoManager s))
       (emit call_RepoManager ;; write_repoManager new_RepoManager) ;;
  s <- get ;;
  when (is_absent (ss_messages s)) (write_messages []).

(** Lines 40-45.  The assignment of line 45 is overwritten by the select
    box of line 50 before it is read. *)
Definition add_custom_repository (url : string) : Script unit :=
  rm <- read_repoManager ;;
  emit (call_add_repo url) ;;
  match Repo.add_repo git_clone url rm with
  | (ok, rm') =>
      write_repoManager rm' ;;
      if ok
      then emit (st_success ("Added custom repository: " ++ url))
      else emit (st_error ("Repository add failed: " ++ url))
  end.

(** Lines 27-48: session keys, then the registry buttons. *)
Definition sidebar_registry (i : Inputs) : Script unit :=
  init_session_state ;;
  emit (st_title "Settings for Repo") ;;
  when (btn_add_custom_repository i)
       (add_custom_repository (custom_repo_url i)) ;;
  when (btn_refresh_repositories i) refresh_repos.

(** Lines 63-71. *)
Definition count_tokens (i : Inputs) (repo : Repo.RepoService)
  : Script unit :=
  emit (call_get_filtered_files (Repo.repo_url repo) (selected_folder i)
          (selected_files i) (selected_languages i) (limit i)) ;;
  let file_string :=
    Repo.get_filtered_files file_header repo (selected_folder i)
      (selected_files i) (selected_languages i) (limit i) in
  emit (st_write_total_tokens
          (TokenCount.num_tokens_from_string Token encode file_string)).

(** Lines 73-78. *)
Definition update_repo_clicked (i : Inputs) (repo : Repo.RepoService)
  : Script unit :=
  rm <- read_repoManager ;;
  emit (call_update_repo (Repo.repo_url repo)) ;;
  match Repo.update_repo git_pull repo rm with
  | (ok, rm') =>
      write_repoManager rm' ;;
      (if ok
       then emit (st_success ("Updated repository: " ++ py_str (repo_url i)))
       else emit (st_error
                    ("Repository update failed: " ++ py_str (repo_url i)))) ;;
      halt Rerun
  end.

(** Lines 80-86. *)
Definition delete_repo_clicked (i : Inputs) (repo : Repo.RepoService)
  : Script unit :=
  rm <- read_repoManager ;;
  emit (call_delete_repo (Repo.repo_url repo)) ;;
  match Repo.delete_repo remove_clone repo rm with
  | (ok, rm') =>
      write_repoManager rm' ;;
      (if ok
       then emit (st_success ("Deleted repository: " ++ py_str (repo_url i)))
       else emit (st_error
                    ("Repository delete failed: " ++ py_str (repo_url i)))) ;;
      refresh_repos ;;
      halt Rerun
  end.

(** Lines 50-86: the per-repository controls, shown for a known URL. *)
Definition sidebar_repo (i : Inputs) : Script unit :=
  rm <- read_repoManager ;;
  if Repo.check_if_repo_exists (repo_url i) rm
  then
    match Repo.get_repo_service (repo_url i) rm with
    | Some repo =>
        when (btn_count_tokens i) (count_tokens i repo) ;;
        when (btn_update_repo i) (update_repo_clicked i repo) ;;
        when (btn_delete_repo i) (delete_repo_clicked i repo)
    | None => halt (KeyError (py_str (repo_url i)))
    end
  else ret tt.

(** Lines 88-100. *)
Definition clear_chat : Script unit := write_messages [].

Definition sidebar_llm (i : Inputs) : Script unit :=
  emit (st_title "Settings for LLM") ;;
  when (btn_clear_chat i) clear_chat.

(** Lines 102-103. *)
Definition init_client (i : Inputs) : Script unit :=
  s <- get ;;
  when (is_absent (ss_client s))
       (emit (call_create_client_for_model (selected_model i)) ;;
        write_client (create_client_for_model (selected_model i))).

(** Lines 105-111. *)
Definition existence_guards (i : Inputs) : Script unit :=
  rm <- read_repoManager ;;
  when (Repo.isEmpty rm)
       (emit (st_info
                "Copy the repository URL and click the download button.") ;;
        halt Stop) ;;
  when (negb (Repo.check_if_repo_exists (repo_url i) rm))
       (emit (st_info (py_str (repo_url i)
                       ++ " does not exist. Please add the repository first.")) ;;
        halt Stop).

(** Lines 136-141: the model-change check. *)
Definition sync_client (i : Inputs) : Script unit :=
  s <- get ;;
  when (is_absent (ss_selected_model s)) (write_selected_model None) ;;
  recorded <- read_selected_model ;;
  match recorded with
  | Some m =>
      if String.eqb m (selected_model i)
      then ret tt
      else
        emit (call_create_client_for_model (selected_model i)) ;;
        write_client (create_client_for_model (selected_model i)) ;;
        write_selected_model (Some (selected_model i))
  | None =>
      emit (call_create_client_for_model (selected_model i)) ;;
      write_client (create_client_for_model (selected_model i)) ;;
      write_selected_model (Some (selected_model i))
  end.

(** Lines 156-160. *)
Definition assemble_messages (system_prompt file_string : string)
           (history : list Message) : list Message :=
  [ {| role := "system"; content := system_prompt |} ]
  ++ [ {| role := "user"; content := file_string |} ]
  ++ history.

(** Lines 130-185: one chat turn for a submitted prompt. *)
Definition chat_turn (i : Inputs) (repo : Repo.RepoService)
           (prompt : string) : Script unit :=
  messages_append {| role := "user"; content := prompt |} ;;
  emit (st_chat_message "user" prompt) ;;
  sync_client i ;;
  emit (call_get_filtered_files (Repo.repo_url repo) (selected_folder i)
          (selected_files i) (selected_languages i) (limit i)) ;;
  let file_string :=
    Repo.get_filtered_files file_header repo (selected_folder i)
      (selected_files i) (selected_languages i) (limit i) in
  let stream_handler := StreamHandler_init st_empty EmptyString in
  history <- read_messages ;;
  let messages := assemble_messages (system_prompt i) file_string history in
  client <- read_client ;;
  let total_tokens :=
    TokenCount.num_messages Token encode tokens_per_message messages in
  emit (sidebar_write_sending (selected_files i) (selected_folder i)) ;;
  emit (sidebar_write_total total_tokens) ;;
  emit (call_client_chat client messages (temperature i)
          (selected_model i)) ;;
  let completion :=
    chat client messages (temperature i) (selected_model i) in
  stream_handler <- consume stream_handler completion ;;
  messages_append {| role := "assistant"; content := text stream_handler |}.

(** Lines 113-185.  [if prompt := st.chat_input():] takes the turn for
    a non-empty text only. *)
Definition main_page (i : Inputs) : Script unit :=
  rm <- read_repoManager ;;
  match Repo.get_repo_service (repo_url i) rm with
  | Some repo =>
      emit (st_title ("Repo: " ++ Repo.repo_name repo)) ;;
      emit (st_write "Chat with LLM using the repository information and files. You can change model settings anytime during the chat.") ;;
      emit (st_info_selection (selected_files i) (selected_folder i)
              (selected_languages i) (limit i)) ;;
      history <- read_messages ;;
      for_each history
        (fun msg => emit (st_chat_message (role msg) (content msg))) ;;
      match prompt i with
      | Some p => if String.eqb p EmptyString then ret tt else chat_turn i repo p
      | None => ret tt
      end
  | None => halt (KeyError (py_str (repo_url i)))
  end.

(** Lines 27-111: everything before the page is drawn. *)
Definition prelude (i : Inputs) : Script unit :=
  sidebar_registry i ;;
  sidebar_repo i ;;
  sidebar_llm i ;;
  init_client i ;;
  existence_guards i.

Definition create_app (i : Inputs) : Script unit :=
  prelude i ;;
  main_page i.

(** Whether ["selected_model"] already records [model]. *)
Definition model_recorded (s : SessionState) (model : string) : bool :=
  match ss_selected_model s with
  | Some (Some m) => String.eqb m model
  | _ => false
  end.

(** The history a key holds, an absent key counting as empty. *)
Definition history_of (o : option (list Message)) : list Message :=
  match o with Some l => l | None => [] end.

(** The texts rendered while [completion] is consumed on top of
    [initial_text]: the k-th is the text after k increments. *)
Definition rendered_texts (initial_text : string)
           (completion : list string) : list string :=
  map (fun k => (initial_text ++ concat_all (firstn k completion))%string)
      (seq 1 (List.length completion)).

(** ** Projections of a run *)
Definition outcome_of {A} (r : Outcome A * SessionState * list Event)
  : Outcome A := fst (fst r).
Definition session_of {A} (r : Outcome A * SessionState * list Event)
  : SessionState := snd (fst r).
Definition trace_of {A} (r : Outcome A * SessionState * list Event)
  : list Event := snd r.

(** Session states reachable from a fresh session by script runs. *)
Inductive reachable : SessionState -> Prop :=
| reachable_fresh : reachable fresh_session
| reachable_run (i : Inputs) (s : SessionState) :
    reachable s -> reachable (session_of (create_app i s)).

(** The invariant of the model-change check: when ["selected_model"]
    records a model, the cached client is the one created for it. *)
Definition client_matches_record (s : SessionState) : Prop :=
  forall m,
    ss_selected_model s = Some (Some m) ->
    ss_client s = Some (create_client_for_model m).

(** Reuse at the model-change check: a cached client that was created
    for the selected model is kept, and no client is created. *)
Definition reuses_cached_client (i : Inputs) (s : SessionState) : Prop :=
  forall c,
    ss_client s = Some c ->
    c = create_client_for_model (selected_model i) ->
    trace_of (sync_client i s) = []
    /\ ss_client (session_of (sync_client i s)) = Some c.

Definition is_chat_call (e : Event) : bool :=
  match e with call_client_chat _ _ _ _ => true | _ => false end.

Definition is_context_call (e : Event) : bool :=
  match e with call_get_filtered_files _ _ _ _ _ => true | _ => false end.

Definition is_client_creation (e : Event) : bool :=
  match e with call_create_client_for_model _ => true | _ => false end.

Definition is_add_repo_call (e : Event) : bool :=
  match e with call_add_repo _ => true | _ => false end.

(** ** Vocabulary for whole runs *)

(** What the repository part of the sidebar (lines 35-86) can render or
    call. *)
Definition is_repo_sidebar_event (e : Event) : bool :=
  match e with
  | st_title _ | st_success _ | st_error _ | st_write_total_tokens _
  | call_RepoManager | call_load_repos | call_add_repo _
  | call_update_repo _ | call_delete_repo _
  | call_get_filtered_files _ _ _ _ _ => true
  | _ => false
  end.

Definition is_streamed_text (e : Event) : bool :=
  match e with container_markdown _ => true | _ => false end.

Definition is_key_error {A} (o : Outcome A) : bool :=
  match o with Halted (KeyError _) => true | _ => false end.

(** The truth value of [st.chat_input()] in line 129. *)
Definition prompt_submitted (i : Inputs) : bool :=
  match prompt i with
  | Some p => negb (String.eqb p EmptyString)
  | None => false
  end.

(** The history the page works on: the stored one, or none after Clear
    Chat. *)
Definition kept_history (i : Inputs) (s : SessionState) : list Message :=
  if btn_clear_chat i then [] else history_of (ss_messages s).

(** The client the page finds: the cached one, or the one line 103
    creates. *)
Definition page_client (i : Inputs) (s : SessionState) : Client :=
  match ss_client s with
  | Some c => c
  | None => create_client_for_model (selected_model i)
  end.

(** What lines 88-103 add to the trace. *)
Definition llm_events (i : Inputs) (s : SessionState) : list Event :=
  st_title "Settings for LLM"
  :: match ss_client s with
     | Some _ => []
     | None => [call_create_client_for_model (selected_model i)]
     end.

(** What lines 113-127 render: the page head and the stored messages. *)
Definition page_events (i : Inputs) (repo : Repo.RepoService)
           (history : list Message) : list Event :=
  [st_title ("Repo: " ++ Repo.repo_name repo);
   st_write "Chat with LLM using the repository information and files. You can change model settings anytime during the chat.";
   st_info_selection (selected_files i) (selected_folder i)
     (selected_languages i) (limit i)]
  ++ map (fun msg => st_chat_message (role msg) (content msg)) history.

(** What the Count Tokens button adds to the trace (lines 63-71). *)
Definition count_tokens_events (i : Inputs) (repo : Repo.RepoService)
  : list Event :=
  if btn_count_tokens i
  then [call_get_filtered_files (Repo.repo_url repo) (selected_folder i)
          (selected_files i) (selected_languages i) (limit i);
        st_write_total_tokens
          (TokenCount.num_tokens_from_string Token encode
             (Repo.get_filtered_files file_header repo (selected_folder i)
                (selected_files i) (selected_languages i) (limit i)))]
  else [].

Definition is_page_event (e : Event) : bool :=
  match e with
  | st_title _ | st_write _ | st_info_selection _ _ _ _
  | st_chat_message _ _ => true
  | _ => false
  end.

(** A history made of user messages each followed by an assistant
    message. *)
Fixpoint alternates (l : list Message) : bool :=
  match l with
  | [] => true
  | u :: rest =>
      match rest with
      | [] => false
      | a :: rest' =>
          String.eqb (role u) "user"
          && String.eqb (role a) "assistant"
          && alternates rest'
      end
  end.

(** Successive runs of the script on one session. *)
Fixpoint run_all (runs : list Inputs) (s : SessionState) : SessionState :=
  match runs with
  | [] => s
  | i :: rest => run_all rest (session_of (create_app i s))
  end.

(** [chat_turns s runs appended s']: every run of [runs], started on the
    session the run before it left ([s] for the first), calls the model
    and does not press Clear Chat; [appended] lists in order, for each
    run, its prompt as a user message and then the completion of its
    call as an assistant message; [s'] is the session after the last
    run. *)
Inductive chat_turns
  : SessionState -> list Inputs -> list Message -> SessionState -> Prop :=
| chat_turns_nil (s : SessionState) : chat_turns s [] [] s
| chat_turns_cons (s : SessionState) (i : Inputs) (p : string) (c : Client)
    (msgs : list Message) (t : Temperature) (m : string)
    (rest : list Inputs) (appended : list Message) (s' : SessionState) :
    btn_clear_chat i = false ->
    prompt i = Some p ->
    In (call_client_chat c msgs t m) (trace_of (create_app i s)) ->
    chat_turns (session_of (create_app i s)) rest appended s' ->
    chat_turns s (i :: rest)
      ({| role := "user"; content := p |}
       :: {| role := "assistant"; content := concat_all (chat c msgs t m) |}
       :: appended)
      s'.
End CreateApp.
End App.

(** * A concrete repository, environment and session, for examples *)
Module Scenario.

Definition a_py : Repo.RepoFile :=
  {| Repo.path := "a.py"; Repo.folder := "/"; Repo.language := "python";
     Repo.size := 11; Repo.file_content := "print('hi')" |}.

Definition b_js : Repo.RepoFile :=
  {| Repo.path := "src/b.js"; Repo.folder := "/src"; Repo.language := "js";
     Repo.size := 15; Repo.file_content := "console.log(1);" |}.

Definition demo_url : string := "https://example.org/demo.git".

Definition demo_repo : Repo.RepoService :=
  {| Repo.repo_url := demo_url; Repo.repo_name := "demo";
     Repo.repo_files := [a_py; b_js] |}.

Definition demo_registry : Repo.RepoManager :=
  {| Repo.repos := [demo_repo] |}.

(** A client is identified with the model it was created for; every
    completion streams the same three increments; a token is a character;
    only [demo_url] can be cloned. *)
Definition demo_env : App.Env :=
  {| App.Client := string;
     App.Temperature := nat;
     App.Token := Ascii.ascii;
     App.create_client_for_model := fun m => m;
     App.chat := fun _ _ _ _ => ["Hel"; "lo"; "!"];
     App.encode := list_ascii_of_string;
     App.tokens_per_message := 3;
     App.file_header := fun p => ("# " ++ p ++ ": ")%string;
     App.new_RepoManager := demo_registry;
     App.load_repos := fun rm => rm;
     App.git_clone :=
       fun url => if String.eqb url demo_url then Some demo_repo else None;
     App.git_pull := fun r => Some r;
     App.remove_clone := fun _ => true |}.

(** A run in which the user only submits [p], with repository [url] and
    model [m] selected. *)
Definition ask_in (url : option string) (m : string) (p : option string)
  : @App.Inputs demo_env :=
  {| App.custom_repo_url := EmptyString;
     App.btn_add_custom_repository := false;
     App.btn_refresh_repositories := false;
     App.repo_url := url;
     App.selected_folder := [];
     App.selected_files := [];
     App.selected_languages := ["python"];
     App.limit := 100000;
     App.btn_count_tokens := false;
     App.btn_update_repo := false;
     App.btn_delete_repo := false;
     App.selected_model := m;
     App.temperature := (7%nat : @App.Temperature demo_env);
     App.system_prompt := "You are a helpful assistant.";
     App.btn_clear_chat := false;
     App.prompt := p |}.

Definition ask (m : string) (p : option string) : @App.Inputs demo_env :=
  ask_in (Some demo_url) m p.

(** A run in which the user presses Add Custom Repository for [url]. *)
Definition add (url : string) : @App.Inputs demo_env :=
  {| App.custom_repo_url := url;
     App.btn_add_custom_repository := true;
     App.btn_refresh_repositories := false;
     App.repo_url := Some demo_url;
     App.selected_folder := [];
     App.selected_files := [];
     App.selected_languages := [];
     App.limit := 100000;
     App.btn_count_tokens := false;
     App.btn_update_repo := false;
     App.btn_delete_repo := false;
     App.selected_model := "gpt";
     App.temperature := (7%nat : @App.Temperature demo_env);
     App.system_prompt := "You are a helpful assistant.";
     App.btn_clear_chat := false;
     App.prompt := None |}.

(** The first turn of a session: model ["gpt"], prompt ["hi"]. *)
Definition first_turn : @App.Inputs demo_env := ask "gpt" (Some "hi").

(** The list sent in that turn, and the model call. *)
Definition first_messages : list Message :=
  [ {| role := "system"; content := "You are a helpful assistant." |};
    {| role := "user"; content := "# a.py: print('hi')" |};
    {| role := "user"; content := "hi" |} ].

Definition first_call : @App.Event demo_env :=
  @App.call_client_chat demo_env "gpt" first_messages 7 "gpt".

(** A second turn, with another model selected. *)
Definition second_turn : @App.Inputs demo_env :=
  ask "claude" (Some "and now?").

Definition after_first_turn : @App.SessionState demo_env :=
  App.session_of (App.create_app first_turn App.fresh_session).

(** A turn submitted while the selected repository is not registered. *)
Definition gone_url : string := "https://example.org/gone.git".

Definition stale_turn : @App.Inputs demo_env :=
  ask_in (Some gone_url) "gpt" (Some "hi").

(** A run in which nothing is submitted. *)
Definition look : @App.Inputs demo_env := ask "gpt" None.

(** Runs in which one repository button is pressed. *)
Definition press (refresh update delete : bool) : @App.Inputs demo_env :=
  {| App.custom_repo_url := EmptyString;
     App.btn_add_custom_repository := false;
     App.btn_refresh_repositories := refresh;
     App.repo_url := Some demo_url;
     App.selected_folder := [];
     App.selected_files := [];
     App.selected_languages := [];
     App.limit := 100000;
     App.btn_count_tokens := false;
     App.btn_update_repo := update;
     App.btn_delete_repo := delete;
     App.selected_model := "gpt";
     App.temperature := (7%nat : @App.Temperature demo_env);
     App.system_prompt := "You are a helpful assistant.";
     App.btn_clear_chat := false;
     App.prompt := Some "hi" |}.

(** The session and trace that lines 27-48 leave on a fresh session when
    no registry button is pressed. *)
Definition seeded_session : @App.SessionState demo_env :=
  App.set_messages [] (App.set_repoManager demo_registry App.fresh_session).

Definition seeded_trace : list (@App.Event demo_env) :=
  [App.call_RepoManager; App.st_title "Settings for Repo"].

(** The list sent in the second turn, and the model call. *)
Definition second_messages : list Message :=
  [ {| role := "system"; content := "You are a helpful assistant." |};
    {| role := "user"; content := "# a.py: print('hi')" |};
    {| role := "user"; content := "hi" |};
    {| role := "assistant"; content := "Hello!" |};
    {| role := "user"; content := "and now?" |} ].

Definition second_call : @App.Event demo_env :=
  @App.call_client_chat demo_env "claude" second_messages 7 "claude".

(** What the two turns append to the history. *)
Definition two_exchanges : list Message :=
  [ {| role := "user"; content := "hi" |};
    {| role := "assistant"; content := "Hello!" |};
    {| role := "user"; content := "and now?" |};
    {| role := "assistant"; content := "Hello!" |} ].

(** A run in which only Clear Chat is pressed. *)
Definition press_clear : @App.Inputs demo_env :=
  {| App.custom_repo_url := EmptyString;
     App.btn_add_custom_repository := false;
     App.btn_refresh_repositories := false;
     App.repo_url := Some demo_url;
     App.selected_folder := [];
     App.selected_files := [];
     App.selected_languages := [];
     App.limit := 100000;
     App.btn_count_tokens := false;
     App.btn_update_repo := false;
     App.btn_delete_repo := false;
     App.selected_model := "gpt";
     App.temperature := (7%nat : @App.Temperature demo_env);
     App.system_prompt := "You are a helpful assistant.";
     App.btn_clear_chat := true;
     App.prompt := None |}.

End Scenario.

(** * Properties of the content selector *)
Section SelectorFacts.
Import Repo.

Lemma in_selection_In (x : string) (sel : list string) :
  in_selection x sel = true <-> In x sel.
Proof.
  unfold in_selection. rewrite existsb_exists. split.
  - intros [y [Hy Heq]]. apply String.eqb_eq in Heq. now subst.
  - intros Hin. exists x. split; [assumption | apply String.eqb_refl].
Qed.

Lemma dimension_ok_spec (sel : list string) (x : string) :
  dimension_ok sel x = true <-> sel = [] \/ In x sel.
Proof.
  destruct sel as [|y sel'].
  - simpl. split; auto.
  - change (dimension_ok (y :: sel') x) with (in_selection x (y :: sel')).
    rewrite in_selection_In. split.
    + auto.
    + intros [Hnil | Hin]; [discriminate | assumption].
Qed.

Lemma file_matches_spec (folders files languages : list string)
      (f : RepoFile) :
  file_matches folders files languages f = true <->
  (folders = [] \/ In (folder f) folders)
  /\ (files = [] \/ In (path f) files)
  /\ (languages = [] \/ In (language f) languages).
Proof.
  unfold file_matches. rewrite !andb_true_iff, !dimension_ok_spec. tauto.
Qed.

(** The files taken are an initial segment of the candidates. *)
Lemma take_within_limit_prefix (limit : Z) (fs : list RepoFile) :
  forall used, exists rest, fs = take_within_limit limit used fs ++ rest.
Proof.
  induction fs as [|f fs IH]; intros used; simpl.
  - exists []. reflexivity.
  - destruct (Z.of_nat (used + size f) <=? limit)%Z.
    + destruct (IH (used + size f)) as [rest Hrest].
      exists rest. simpl. now rewrite <- Hrest.
    + exists (f :: fs). reflexivity.
Qed.

Lemma take_within_limit_budget (limit : Z) (fs : list RepoFile) :
  forall used,
    (Z.of_nat used <= limit)%Z ->
    (Z.of_nat (used + total_size (take_within_limit limit used fs))
     <= limit)%Z.
Proof.
  induction fs as [|f fs IH]; intros used Hused; simpl.
  - now rewrite Nat.add_0_r.
  - destruct (Z.of_nat (used + size f) <=? limit)%Z eqn:Hfit.
    + apply Z.leb_le in Hfit. simpl.
      rewrite Nat.add_assoc. now apply IH.
    + simpl. now rewrite Nat.add_0_r.
Qed.

Lemma included_files_match (r : RepoService)
      (folders files languages : list string) (limit : Z) (f : RepoFile) :
  In f (included_files r folders files languages limit) ->
  In f (repo_files r) /\ file_matches folders files languages f = true.
Proof.
  unfold included_files, matching_files. intros Hin.
  destruct (take_within_limit_prefix limit
              (filter (file_matches folders files languages) (repo_files r))
              0) as [rest Hrest].
  apply filter_In. rewrite Hrest. apply in_or_app. now left.
Qed.

(** C1: the text returned by the content selector is the concatenation
    of the rendered contents of files of the repository each of which
    matches every non-empty filter dimension: its folder is one of the
    selected folders or none is selected, and its path is one of the
    selected files or none is selected, and its language is one of the
    selected languages or none is selected. *)
Theorem C1_selector_respects_filters
        (file_header : string -> string) (r : RepoService)
        (folders files languages : list string) (limit : Z) :
  get_filtered_files file_header r folders files languages limit
  = concat_all (map (render_file file_header)
                    (included_files r folders files languages limit))
  /\ Forall (fun f =>
               In f (repo_files r)
               /\ (folders = [] \/ In (folder f) folders)
               /\ (files = [] \/ In (path f) files)
               /\ (languages = [] \/ In (language f) languages))
            (included_files r folders files languages limit).
Proof.
  split; [reflexivity|].
  apply Forall_forall. intros f Hin.
  apply included_files_match in Hin. destruct Hin as [Hrepo Hmatch].
  apply file_matches_spec in Hmatch. tauto.
Qed.

(** C2: for a positive limit the files whose content is included have a
    cumulative size within the limit; they are an initial segment of the
    matching files and the output is the concatenation of their whole
    rendered contents; and when the first matching file is larger than
    the limit the output is the empty text. *)
Theorem C2_selector_within_limit
        (file_header : string -> string) (r : RepoService)
        (folders files languages : list string) (limit : Z) :
  (0 < limit)%Z ->
  (Z.of_nat (total_size (included_files r folders files languages limit))
   <= limit)%Z
  /\ (exists rest,
        matching_files r folders files languages
        = included_files r folders files languages limit ++ rest)
  /\ get_filtered_files file_header r folders files languages limit
     = concat_all (map (render_file file_header)
                       (included_files r folders files languages limit))
  /\ (forall f rest,
        matching_files r folders files languages = f :: rest ->
        (limit < Z.of_nat (size f))%Z ->
        get_filtered_files file_header r folders files languages limit
        = EmptyString).
Proof.
  intros Hpos. repeat split.
  - unfold included_files.
    apply (take_within_limit_budget limit
             (matching_files r folders files languages) 0).
    simpl. lia.
  - apply take_within_limit_prefix.
  - intros f rest Hfirst Hbig.
    unfold get_filtered_files, included_files. rewrite Hfirst. simpl.
    destruct (Z.of_nat (size f) <=? limit)%Z eqn:Hfit.
    + apply Z.leb_le in Hfit. lia.
    + reflexivity.
Qed.

Lemma C2_selector_within_limit_witness :
  (0 < 10)%Z
  /\ matching_files Scenario.demo_repo [] [] []
     = [Scenario.a_py; Scenario.b_js]
  /\ (10 < Z.of_nat (size Scenario.a_py))%Z
  /\ get_filtered_files (fun p => p) Scenario.demo_repo [] [] [] 10
     = EmptyString.
Proof.
  assert (Hpos : (0 < 10)%Z) by lia.
  assert (Hbig : (10 < Z.of_nat (size Scenario.a_py))%Z)
    by (vm_compute; reflexivity).
  refine (conj Hpos (conj eq_refl (conj Hbig _))).
  exact (proj2 (proj2 (proj2
           (C2_selector_within_limit (fun p => p) Scenario.demo_repo
              [] [] [] 10 Hpos)))
           Scenario.a_py [Scenario.b_js] eq_refl Hbig).
Defined.

(** The spec's scenario: a Python file in the root folder and a
    JavaScript file under [/src]; selecting the language python returns
    the Python file's content only. *)
Example select_python_only :
  get_filtered_files (fun p => (p ++ ": ")%string) Scenario.demo_repo
                     [] [] ["python"] 100000
  = "a.py: print('hi')".
Proof. reflexivity. Qed.
End SelectorFacts.

(** * Properties of the script *)
Section ScriptFacts.
Import App.
Context {E : Env}.

Lemma string_app_assoc (a b c : string) :
  ((a ++ b) ++ c)%string = (a ++ (b ++ c))%string.
Proof. induction a as [|ch a IH]; simpl; [reflexivity | now rewrite IH]. Qed.

Lemma string_app_empty_r (a : string) : (a ++ EmptyString)%string = a.
Proof. induction a as [|ch a IH]; simpl; [reflexivity | now rewrite IH]. Qed.

(** ** The monad *)

Lemma for_each_emit {A} (f : A -> Event) (l : list A) (s : SessionState) :
  for_each l (fun x => emit (f x)) s = (Ret tt, s, map f l).
Proof.
  induction l as [|x l IH]; [reflexivity|].
  simpl. unfold bind at 1. simpl. now rewrite IH.
Qed.

(** ** The session history *)

Lemma messages_append_run (m : Message) (history : list Message)
      (s : SessionState) :
  messages_append m (set_messages history s)
  = (Ret tt, set_messages (history ++ [m]) s, []).
Proof. reflexivity. Qed.

(** ** The streaming loop *)

Lemma rendered_texts_cons (initial_text token : string)
      (completion : list string) :
  rendered_texts initial_text (token :: completion)
  = (initial_text ++ token)%string
    :: rendered_texts (initial_text ++ token)%string completion.
Proof.
  unfold rendered_texts. simpl. f_equal.
  - now rewrite string_app_empty_r.
  - rewrite <- seq_shift, map_map. apply map_ext.
    intros k. simpl. now rewrite string_app_assoc.
Qed.

Lemma consume_run (completion : list string) :
  forall (h : StreamHandler) (s : SessionState),
    consume h completion s
    = (Ret {| container :=
                match completion with
                | [] => container h
                | _ :: _ => Some (text h ++ concat_all completion)%string
                end;
              text := (text h ++ concat_all completion)%string |},
       s,
       map container_markdown (rendered_texts (text h) completion)).
Proof.
  induction completion as [|token completion IH]; intros h s.
  - simpl. rewrite string_app_empty_r. now destruct h.
  - rewrite rendered_texts_cons.
    simpl consume. unfold bind at 1. unfold process_token at 1.
    unfold bind at 1. simpl. rewrite IH. simpl.
    rewrite string_app_assoc.
    destruct completion; simpl; [|reflexivity].
    now rewrite string_app_empty_r.
Qed.

(** ** The phases of [create_app] *)

Lemma sidebar_registry_run (i : Inputs) (s : SessionState) :
  exists rm t,
    sidebar_registry i s
    = (Ret tt,
       set_repoManager rm (set_messages (history_of (ss_messages s)) s), t)
    /\ forallb (fun e => negb (is_chat_call e || is_context_call e)) t
       = true.
Proof.
  unfold sidebar_registry, init_session_state, add_custom_repository,
    refresh_repos, Repo.add_repo.
  destruct s as [[rm|] [l|] c sm];
    destruct (btn_add_custom_repository i);
    destruct (btn_refresh_repositories i);
    cbn;
    try destruct (git_clone (custom_repo_url i));
    cbn; eexists; eexists; split; reflexivity.
Qed.

Lemma sidebar_repo_run (i : Inputs) (s : SessionState)
      (rm : Repo.RepoManager) :
  ss_repoManager s = Some rm ->
  exists o rm' t,
    sidebar_repo i s = (o, set_repoManager rm' s, t)
    /\ forallb (fun e => negb (is_chat_call e)) t = true
    /\ ((o = Ret tt /\ rm' = rm) \/ o = Halted Rerun)
    /\ (Repo.check_if_repo_exists (repo_url i) rm = false ->
        o = Ret tt /\ t = []).
Proof.
  intros Hrm. destruct s as [rmo l c sm]. simpl in Hrm. subst rmo.
  unfold sidebar_repo, Repo.check_if_repo_exists, count_tokens,
    update_repo_clicked, delete_repo_clicked, refresh_repos,
    Repo.update_repo, Repo.delete_repo.
  cbn.
  destruct (Repo.get_repo_service (repo_url i) rm) as [repo|]; cbn.
  - destruct (btn_count_tokens i), (btn_update_repo i),
      (btn_delete_repo i); cbn;
      try destruct (git_pull repo); try destruct (remove_clone repo);
      cbn; eexists; eexists; eexists;
      (split; [reflexivity|]);
      (split; [reflexivity|]);
      (split; [first [left; split; reflexivity | right; reflexivity]
              | discriminate]).
  - exists (Ret tt), rm, []. repeat split; auto.
Qed.

Lemma sidebar_llm_run (i : Inputs) (s : SessionState) :
  sidebar_llm i s
  = (Ret tt, (if btn_clear_chat i then set_messages [] s else s),
     [st_title "Settings for LLM"]).
Proof.
  unfold sidebar_llm, clear_chat. now destruct (btn_clear_chat i).
Qed.

Lemma init_client_run (i : Inputs) (s : SessionState) :
  init_client i s
  = (Ret tt,
     match ss_client s with
     | Some _ => s
     | None => set_client (create_client_for_model (selected_model i)) s
     end,
     match ss_client s with
     | Some _ => []
     | None => [call_create_client_for_model (selected_model i)]
     end).
Proof.
  unfold init_client. cbn. now destruct (ss_client s).
Qed.

Lemma existence_guards_run (i : Inputs) (s : SessionState)
      (rm : Repo.RepoManager) :
  ss_repoManager s = Some rm ->
  existence_guards i s
  = if Repo.isEmpty rm
    then (Halted Stop, s,
          [st_info "Copy the repository URL and click the download button."])
    else if Repo.check_if_repo_exists (repo_url i) rm
         then (Ret tt, s, [])
         else (Halted Stop, s,
               [st_info (py_str (repo_url i)
                         ++ " does not exist. Please add the repository first.")]).
Proof.
  intros Hrm. destruct s as [rmo l c sm]. simpl in Hrm. subst rmo.
  unfold existence_guards, read_repoManager. cbn.
  destruct (Repo.isEmpty rm); cbn; [reflexivity|].
  now destruct (Repo.check_if_repo_exists (repo_url i) rm).
Qed.

(** What the lines before the page leave behind: the registry and the
    history are present, ["selected_model"] is untouched, no model call
    was made; on a rerun the chat keys are as they were, otherwise the
    history was cleared on request and a client is present. *)
Lemma prelude_run (i : Inputs) (s : SessionState) :
  exists o rm l co t,
    prelude i s
    = (o, mkSession (Some rm) (Some l) co (ss_selected_model s), t)
    /\ forallb (fun e => negb (is_chat_call e)) t = true
    /\ ((o = Halted Rerun
         /\ l = history_of (ss_messages s) /\ co = ss_client s)
        \/ (((o = Ret tt
              /\ Repo.check_if_repo_exists (repo_url i) rm = true)
             \/ (o = Halted Stop
                 /\ (Repo.isEmpty rm = true
                     \/ Repo.check_if_repo_exists (repo_url i) rm = false)))
            /\ l = (if btn_clear_chat i then []
                    else history_of (ss_messages s))
            /\ co = Some match ss_client s with
                          | Some c => c
                          | None =>
                              create_client_for_model (selected_model i)
                          end)).
Proof.
  unfold prelude.
  destruct (sidebar_registry_run i s) as (rm1 & t1 & H1 & Hq1).
  destruct s as [rmo lo co0 smo]. cbn in *.
  unfold bind at 1. rewrite H1.
  match type of H1 with
  | _ = (_, ?s1, _) =>
      destruct (sidebar_repo_run i s1 rm1 eq_refl)
        as (o2 & rm2 & t2 & H2 & Hq2 & Ho2 & _)
  end.
  unfold bind at 1. rewrite H2.
  assert (Hq1' : forallb (fun e => negb (is_chat_call e)) t1 = true).
  { rewrite forallb_forall in Hq1. apply forallb_forall.
    intros e He. specialize (Hq1 e He).
    now destruct (is_chat_call e). }
  destruct Ho2 as [[-> ->] | ->].
  - unfold bind at 1. rewrite sidebar_llm_run.
    unfold bind at 1. rewrite init_client_run.
    match goal with
    | |- context [existence_guards i ?s0] =>
        rewrite (existence_guards_run i s0 rm1)
          by (cbn; destruct co0, (btn_clear_chat i); reflexivity)
    end.
    destruct (Repo.isEmpty rm1) eqn:Hempty;
      [|destruct (Repo.check_if_repo_exists (repo_url i) rm1) eqn:Hex];
      destruct co0 as [c|], (btn_clear_chat i); cbn;
      do 5 eexists;
      (split; [reflexivity|]);
      (split; [rewrite ?forallb_app, Hq1', Hq2; reflexivity|]);
      right; (split; [|split; reflexivity]); auto.
  - do 5 eexists. split; [reflexivity|].
    split; [now rewrite forallb_app, Hq1', Hq2|].
    left. repeat split.
Qed.

Lemma sync_client_run (i : Inputs) (s : SessionState) :
  sync_client i s
  = if model_recorded s (selected_model i)
    then (Ret tt, s, [])
    else (Ret tt,
          set_selected_model (Some (selected_model i))
            (set_client (create_client_for_model (selected_model i)) s),
          [call_create_client_for_model (selected_model i)]).
Proof.
  unfold sync_client, model_recorded.
  destruct s as [rmo lo co [[m|]|]]; cbn;
    try destruct (String.eqb m (selected_model i)); reflexivity.
Qed.

(** One chat turn, from a session in which the registry, the history
    and a client are present. *)
Lemma chat_turn_run (i : Inputs) (repo : Repo.RepoService) (p : string)
      (rm : Repo.RepoManager) (l : list Message) (c : Client)
      (sm : option (option string)) :
  let s0 := mkSession (Some rm) (Some l) (Some c) sm in
  let history := l ++ [ {| role := "user"; content := p |} ] in
  let recorded := model_recorded s0 (selected_model i) in
  let client :=
    if recorded then c else create_client_for_model (selected_model i) in
  let file_string :=
    Repo.get_filtered_files file_header repo (selected_folder i)
      (selected_files i) (selected_languages i) (limit i) in
  let messages := assemble_messages (system_prompt i) file_string history in
  let completion :=
    chat client messages (temperature i) (selected_model i) in
  chat_turn i repo p s0
  = (Ret tt,
     mkSession (Some rm)
       (Some (history ++ [ {| role := "assistant";
                              content := concat_all completion |} ]))
       (Some client)
       (if recorded then sm else Some (Some (selected_model i))),
     [st_chat_message "user" p]
     ++ (if recorded then []
         else [call_create_client_for_model (selected_model i)])
     ++ [call_get_filtered_files (Repo.repo_url repo) (selected_folder i)
           (selected_files i) (selected_languages i) (limit i);
         sidebar_write_sending (selected_files i) (selected_folder i);
         sidebar_write_total
           (TokenCount.num_messages Token encode tokens_per_message
              messages);
         call_client_chat client messages (temperature i)
           (selected_model i)]
     ++ map container_markdown (rendered_texts EmptyString completion)).
Proof.
  intros s0 history recorded client file_string messages completion.
  unfold chat_turn.
  unfold bind at 1. rewrite (messages_append_run _ l s0).
  unfold bind at 1. unfold emit at 1.
  unfold bind at 1. rewrite sync_client_run.
  fold history.
  change (model_recorded (set_messages history s0) (selected_model i))
    with recorded.
  destruct recorded; cbn -[consume assemble_messages rendered_texts
                             TokenCount.num_messages Repo.get_filtered_files];
    fold file_string; fold messages; fold completion.
  all: unfold bind; rewrite consume_run; cbn -[assemble_messages rendered_texts
                             TokenCount.num_messages Repo.get_filtered_files].
  all: rewrite app_nil_r; reflexivity.
Qed.

Lemma main_page_run (i : Inputs) (repo : Repo.RepoService)
      (rm : Repo.RepoManager) (l : list Message) (co : option Client)
      (sm : option (option string)) :
  Repo.get_repo_service (repo_url i) rm = Some repo ->
  let s0 := mkSession (Some rm) (Some l) co sm in
  let page :=
    [st_title ("Repo: " ++ Repo.repo_name repo);
     st_write "Chat with LLM using the repository information and files. You can change model settings anytime during the chat.";
     st_info_selection (selected_files i) (selected_folder i)
       (selected_languages i) (limit i)]
    ++ map (fun msg => st_chat_message (role msg) (content msg)) l in
  main_page i s0
  = match prompt i with
    | Some p =>
        if String.eqb p EmptyString
        then (Ret tt, s0, page)
        else (outcome_of (chat_turn i repo p s0),
              session_of (chat_turn i repo p s0),
              page ++ trace_of (chat_turn i repo p s0))
    | None => (Ret tt, s0, page)
    end.
Proof.
  intros Hrepo s0 page.
  unfold main_page. unfold bind at 1. cbn -[chat_turn].
  rewrite Hrepo.
  do 3 (unfold bind at 1; unfold emit at 1).
  unfold bind at 1. cbn -[chat_turn].
  unfold bind at 1. rewrite for_each_emit.
  destruct (prompt i) as [p|]; [destruct (String.eqb p EmptyString)|].
  - cbn. now rewrite app_nil_r.
  - destruct (chat_turn i repo p s0) as [[o s1] t1]. reflexivity.
  - cbn. now rewrite app_nil_r.
Qed.

Lemma no_chat_call_in (tr : list Event) (c : Client) (msgs : list Message)
      (t : Temperature) (m : string) :
  forallb (fun e => negb (is_chat_call e)) tr = true ->
  ~ In (call_client_chat c msgs t m) tr.
Proof.
  intros Hq Hin. rewrite forallb_forall in Hq.
  specialize (Hq _ Hin). discriminate.
Qed.

Lemma replay_no_chat_call (l : list Message) :
  forallb (fun e => negb (is_chat_call e))
          (map (fun msg => st_chat_message (role msg) (content msg)) l)
  = true.
Proof. induction l as [|x l IH]; [reflexivity | exact IH]. Qed.

Lemma move_call_out (a b c d : list Event) (x1 x2 x3 y : Event)
      (r : list Event) :
  a ++ b ++ c ++ d ++ [x1; x2; x3; y] ++ r
  = (a ++ b ++ c ++ d ++ [x1; x2; x3]) ++ y :: r.
Proof. rewrite <- !app_assoc. reflexivity. Qed.

(** Every model call of a run is the call of its chat turn: the run got
    past the guards with a non-empty prompt, and the call, the final
    session and the trace are those of [chat_turn]. *)
Lemma chat_call_inversion (i : Inputs) (s : SessionState) (c : Client)
      (msgs : list Message) (t : Temperature) (m : string) :
  In (call_client_chat c msgs t m) (trace_of (create_app i s)) ->
  exists rm repo p pre,
    let l := if btn_clear_chat i then [] else history_of (ss_messages s) in
    let c0 := match ss_client s with
              | Some c1 => c1
              | None => create_client_for_model (selected_model i)
              end in
    let history := l ++ [ {| role := "user"; content := p |} ] in
    Repo.get_repo_service (repo_url i) rm = Some repo
    /\ prompt i = Some p
    /\ p <> EmptyString
    /\ c = (if model_recorded s (selected_model i) then c0
            else create_client_for_model (selected_model i))
    /\ msgs = assemble_messages (system_prompt i)
                (Repo.get_filtered_files file_header repo
                   (selected_folder i) (selected_files i)
                   (selected_languages i) (limit i))
                history
    /\ t = temperature i
    /\ m = selected_model i
    /\ create_app i s
       = (Ret tt,
          mkSession (Some rm)
            (Some (history
                   ++ [ {| role := "assistant";
                           content := concat_all (chat c msgs t m) |} ]))
            (Some c)
            (if model_recorded s (selected_model i)
             then ss_selected_model s
             else Some (Some (selected_model i))),
          pre ++ call_client_chat c msgs t m
              :: map container_markdown
                   (rendered_texts EmptyString (chat c msgs t m)))
    /\ forallb (fun e => negb (is_chat_call e)) pre = true
    /\ (model_recorded s (selected_model i) = false ->
        In (call_create_client_for_model (selected_model i)) pre).
Proof.
  intros Hin. unfold create_app in *.
  destruct (prelude_run i s) as (o & rm & l & co & t0 & Hp & Hq & Hcases).
  unfold bind in Hin |- *. rewrite Hp in *.
  destruct Hcases as [(-> & _) | ([(-> & Hex) | (-> & _)] & Hl & Hco)].
  - now apply no_chat_call_in in Hin.
  - unfold Repo.check_if_repo_exists in Hex.
    destruct (Repo.get_repo_service (repo_url i) rm) as [repo|] eqn:Hrepo;
      [clear Hex | discriminate].
    rewrite (main_page_run i repo rm l co _ Hrepo) in *.
    destruct (prompt i) as [p|] eqn:Hprompt;
      [destruct (String.eqb p EmptyString) eqn:Hp0|].
    + cbn in Hin. apply in_app_or in Hin.
      destruct Hin as [Hin | Hin]; [now apply no_chat_call_in in Hin|].
      cbn in Hin. destruct Hin as [Hin | [Hin | [Hin | Hin]]];
        try discriminate.
      apply in_map_iff in Hin. destruct Hin as (x & Hx & _). discriminate.
    + subst co.
      rewrite (chat_turn_run i repo p rm l _ (ss_selected_model s)) in *.
      change (model_recorded
                (mkSession (Some rm) (Some l)
                   (Some match ss_client s with
                         | Some c1 => c1
                         | None => create_client_for_model (selected_model i)
                         end) (ss_selected_model s)) (selected_model i))
        with (model_recorded s (selected_model i)) in *.
      cbn [outcome_of session_of trace_of fst snd] in *.
      apply in_app_or in Hin.
      destruct Hin as [Hin | Hin]; [now apply no_chat_call_in in Hin|].
      apply in_app_or in Hin. destruct Hin as [Hin | Hin].
      { apply in_app_or in Hin. destruct Hin as [Hin | Hin].
        - cbn in Hin.
          destruct Hin as [Hin | [Hin | [Hin | Hin]]]; try discriminate.
          contradiction.
        - apply in_map_iff in Hin. destruct Hin as (x & Hx & _).
          discriminate. }
      apply in_app_or in Hin. destruct Hin as [Hin | Hin].
      { cbn in Hin. destruct Hin as [Hin | Hin];
          [discriminate | contradiction]. }
      apply in_app_or in Hin. destruct Hin as [Hin | Hin].
      { destruct (model_recorded s (selected_model i)); cbn in Hin.
        - contradiction.
        - destruct Hin as [Hin | Hin]; [discriminate | contradiction]. }
      apply in_app_or in Hin. destruct Hin as [Hin | Hin].
      2:{ apply in_map_iff in Hin. destruct Hin as (x & Hx & _).
          discriminate. }
      cbn in Hin.
      destruct Hin as [Hin | [Hin | [Hin | [Hin | Hin]]]];
        try discriminate; try contradiction.
      injection Hin as Hc Hmsgs Ht Hm.
      exists rm, repo, p.
      eexists.
      cbn zeta. subst l.
      rewrite <- Hc, <- Hmsgs, <- Ht, <- Hm.
      assert (Hp1 : p <> EmptyString).
      { intros ->. discriminate. }
      repeat (split; [reflexivity || exact Hp1 || exact Hrepo |]).
      split.
      * f_equal. rewrite move_call_out. reflexivity.
      * split.
        -- rewrite !forallb_app, Hq, replay_no_chat_call.
           now destruct (model_recorded s (selected_model i)).
        -- intros Hrec. rewrite Hrec.
           do 3 (apply in_or_app; right).
           apply in_or_app. left. now left.
    + cbn in Hin. apply in_app_or in Hin.
      destruct Hin as [Hin | Hin]; [now apply no_chat_call_in in Hin|].
      cbn in Hin. destruct Hin as [Hin | [Hin | [Hin | Hin]]];
        try discriminate.
      apply in_map_iff in Hin. destruct Hin as (x & Hx & _). discriminate.
  - now apply no_chat_call_in in Hin.
Qed.

Lemma rendered_texts_nth (initial_text : string) (completion : list string)
      (k : nat) :
  nth_error (rendered_texts initial_text completion) k
  = if (k <? List.length completion)%nat
    then Some (initial_text ++ concat_all (firstn (S k) completion))%string
    else None.
Proof.
  unfold rendered_texts.
  destruct (k <? List.length completion)%nat eqn:Hk.
  - apply Nat.ltb_lt in Hk.
    rewrite nth_error_map, nth_error_nth' with (d := 0)
      by now rewrite length_seq.
    rewrite seq_nth by assumption. reflexivity.
  - apply Nat.ltb_ge in Hk. apply nth_error_None.
    now rewrite length_map, length_seq.
Qed.

(** C4: the streaming loop renders one text per increment, in arrival
    order, the text rendered after increment k being the concatenation
    of the first k increments; it leaves the session untouched and ends
    with the concatenation of all increments as the handler's text; and
    in a run, the renderings that follow the model call are those of its
    completion and the assistant message appended to the history is the
    concatenation of all its increments. *)
Theorem C4_streamed_text_is_concatenation :
  (forall (completion : list string) (s : SessionState),
      consume (StreamHandler_init st_empty EmptyString) completion s
      = (Ret {| container :=
                  match completion with
                  | [] => st_empty
                  | _ :: _ => Some (concat_all completion)
                  end;
                text := concat_all completion |},
         s,
         map container_markdown (rendered_texts EmptyString completion)))
  /\ (forall (completion : list string) (k : nat),
        nth_error (rendered_texts EmptyString completion) k
        = if (k <? List.length completion)%nat
          then Some (concat_all (firstn (S k) completion))
          else None)
  /\ (forall (i : Inputs) (s : SessionState) (c : Client)
             (msgs : list Message) (t : Temperature) (m : string),
        In (call_client_chat c msgs t m) (trace_of (create_app i s)) ->
        exists pre history,
          trace_of (create_app i s)
          = pre ++ call_client_chat c msgs t m
                :: map container_markdown
                     (rendered_texts EmptyString (chat c msgs t m))
          /\ ss_messages (session_of (create_app i s))
             = Some (history
                     ++ [ {| role := "assistant";
                             content := concat_all (chat c msgs t m) |} ])).
Proof.
  split; [|split].
  - intros completion s. rewrite consume_run. reflexivity.
  - intros completion k. apply rendered_texts_nth.
  - intros i s c msgs t m Hin.
    destruct (chat_call_inversion i s c msgs t m Hin)
      as (rm & repo & p & pre & _ & _ & _ & _ & _ & _ & _ & Hrun & _).
    rewrite Hrun. eexists. eexists. split; reflexivity.
Qed.

(** C5: the message list of every model call of a run is the system
    prompt, then the text the content selector returns for the selected
    repository and filters, then the whole session history as it stands
    at the call, in that order. *)
Theorem C5_messages_system_context_history
        (i : Inputs) (s : SessionState) (c : Client)
        (msgs : list Message) (t : Temperature) (m : string) :
  In (call_client_chat c msgs t m) (trace_of (create_app i s)) ->
  exists rm repo history,
    ss_repoManager (session_of (create_app i s)) = Some rm
    /\ Repo.get_repo_service (repo_url i) rm = Some repo
    /\ msgs
       = [ {| role := "system"; content := system_prompt i |} ]
         ++ [ {| role := "user";
                 content :=
                   Repo.get_filtered_files file_header repo
                     (selected_folder i) (selected_files i)
                     (selected_languages i) (limit i) |} ]
         ++ history
    /\ ss_messages (session_of (create_app i s))
       = Some (history
               ++ [ {| role := "assistant";
                       content := concat_all (chat c msgs t m) |} ]).
Proof.
  intros Hin.
  destruct (chat_call_inversion i s c msgs t m Hin)
    as (rm & repo & p & pre & Hrepo & _ & _ & _ & Hmsgs & _ & _ & Hrun & _).
  rewrite Hrun. exists rm, repo. eexists.
  split; [reflexivity|]. split; [exact Hrepo|].
  split; [exact Hmsgs | reflexivity].
Qed.

(** C10: in every run that calls the model a non-empty prompt was
    submitted, and the message list sent is the system prompt and the
    context followed by the earlier history (empty when Clear Chat was
    pressed in this run) in order and then, last, the current prompt as
    a user message; the session history holds that prompt right after
    the earlier messages. *)
Theorem C10_prompt_is_last_message_sent
        (i : Inputs) (s : SessionState) (c : Client)
        (msgs : list Message) (t : Temperature) (m : string) :
  In (call_client_chat c msgs t m) (trace_of (create_app i s)) ->
  exists p earlier,
    prompt i = Some p
    /\ p <> EmptyString
    /\ earlier = (if btn_clear_chat i then []
                  else history_of (ss_messages s))
    /\ skipn 2 msgs = earlier ++ [ {| role := "user"; content := p |} ]
    /\ last msgs {| role := "system"; content := system_prompt i |}
       = {| role := "user"; content := p |}
    /\ ss_messages (session_of (create_app i s))
       = Some ((earlier ++ [ {| role := "user"; content := p |} ])
               ++ [ {| role := "assistant";
                       content := concat_all (chat c msgs t m) |} ]).
Proof.
  intros Hin.
  destruct (chat_call_inversion i s c msgs t m Hin)
    as (rm & repo & p & pre & _ & Hp & Hp0 & _ & Hmsgs & _ & _ & Hrun & _).
  rewrite Hrun. exists p. eexists.
  split; [exact Hp|]. split; [exact Hp0|]. split; [reflexivity|].
  rewrite Hmsgs. split; [reflexivity|]. split; [|reflexivity].
  unfold assemble_messages.
  rewrite !app_assoc. apply last_last.
Qed.

(** C6: when the selected URL is not in the registry as the add and
    refresh buttons leave it, the run stops at the guards: it ends with
    [st.stop()], the last thing rendered is an informational message,
    no context was built and no model call was made, and the history is
    what it was (or empty, when Clear Chat was pressed). *)
Theorem C6_unknown_repository_stops_the_run
        (i : Inputs) (s s1 : SessionState) (t1 : list Event)
        (rm : Repo.RepoManager) :
  sidebar_registry i s = (Ret tt, s1, t1) ->
  ss_repoManager s1 = Some rm ->
  Repo.check_if_repo_exists (repo_url i) rm = false ->
  outcome_of (create_app i s) = Halted Stop
  /\ (exists before text,
        trace_of (create_app i s) = before ++ [st_info text])
  /\ forallb (fun e => negb (is_chat_call e || is_context_call e))
             (trace_of (create_app i s)) = true
  /\ ss_messages (session_of (create_app i s))
     = Some (if btn_clear_chat i then []
             else history_of (ss_messages s)).
Proof.
  intros Hreg Hrm Hcheck.
  destruct (sidebar_registry_run i s) as (rm1 & t1' & H1 & Hq1).
  rewrite Hreg in H1. injection H1 as Hs1 Ht1. subst s1 t1'.
  cbn in Hrm. injection Hrm as ->.
  match type of Hreg with
  | _ = (_, ?s1, _) =>
      destruct (sidebar_repo_run i s1 rm eq_refl)
        as (o2 & rm2 & t2 & H2 & _ & _ & Hquiet)
  end.
  destruct (Hquiet Hcheck) as [-> ->]. clear Hquiet.
  assert (Hrm2 : rm2 = rm).
  { destruct s as [rmo lo co smo].
    unfold sidebar_repo, Repo.check_if_repo_exists in *. cbn in *.
    destruct (Repo.get_repo_service (repo_url i) rm); [discriminate|].
    cbn in H2. now injection H2 as <-. }
  subst rm2.
  set (s1 := set_repoManager rm
               (set_messages (history_of (ss_messages s)) s)) in *.
  set (s2 := if btn_clear_chat i
             then set_messages [] (set_repoManager rm s1)
             else set_repoManager rm s1).
  set (s3 := match ss_client s2 with
             | Some _ => s2
             | None =>
                 set_client (create_client_for_model (selected_model i)) s2
             end).
  set (creation := match ss_client s2 with
                   | Some _ => []
                   | None =>
                       [call_create_client_for_model (selected_model i)]
                   end).
  set (text := if Repo.isEmpty rm
               then "Copy the repository URL and click the download button."
               else (py_str (repo_url i)
                     ++ " does not exist. Please add the repository first.")%string).
  assert (Hrun : create_app i s
                 = (Halted Stop, s3,
                    (t1 ++ [st_title "Settings for LLM"] ++ creation)
                    ++ [st_info text])).
  { unfold create_app, prelude.
    unfold bind at 1. unfold bind at 1. rewrite Hreg.
    unfold bind at 1. rewrite H2.
    unfold bind at 1. rewrite sidebar_llm_run. fold s2.
    unfold bind at 1. rewrite init_client_run. fold s3. fold creation.
    cbv beta iota.
    rewrite (existence_guards_run i s3 rm)
      by (subst s3 s2 s1; destruct s as [rmo lo [c|] smo];
          destruct (btn_clear_chat i); reflexivity).
    rewrite Hcheck. subst text.
    destruct (Repo.isEmpty rm); cbn; now rewrite <- !app_assoc. }
  rewrite Hrun. cbn [outcome_of session_of trace_of fst snd].
  split; [reflexivity|].
  split; [now exists (t1 ++ [st_title "Settings for LLM"] ++ creation), text|].
  split.
  - rewrite !forallb_app, Hq1. subst creation.
    now destruct (ss_client s2).
  - subst s3 s2 s1. destruct s as [rmo lo [c|] smo];
      now destruct (btn_clear_chat i).
Qed.

(** C7: when the clone of the URL fails, [add_repo] reports failure and
    returns the registry it was given; the Add Custom Repository handler
    calls it once, shows the error message and leaves the session (and
    so the set of known URLs) as it was; and so does the whole sidebar
    block when Refresh Repositories is not pressed. *)
Theorem C7_failed_add_leaves_registry
        (url : string) (rm : Repo.RepoManager) (l : list Message)
        (s : SessionState) :
  git_clone url = None ->
  Repo.add_repo git_clone url rm = (false, rm)
  /\ add_custom_repository url (set_repoManager rm s)
     = (Ret tt, set_repoManager rm s,
        [call_add_repo url; st_error ("Repository add failed: " ++ url)])
  /\ filter is_add_repo_call
       (trace_of (add_custom_repository url (set_repoManager rm s)))
     = [call_add_repo url]
  /\ option_map Repo.get_repo_urls
       (ss_repoManager
          (session_of (add_custom_repository url (set_repoManager rm s))))
     = Some (Repo.get_repo_urls rm)
  /\ (forall i,
        custom_repo_url i = url ->
        btn_add_custom_repository i = true ->
        btn_refresh_repositories i = false ->
        sidebar_registry i (set_messages l (set_repoManager rm s))
        = (Ret tt, set_messages l (set_repoManager rm s),
           [st_title "Settings for Repo"; call_add_repo url;
            st_error ("Repository add failed: " ++ url)])).
Proof.
  intros Hclone.
  assert (Hadd : Repo.add_repo git_clone url rm = (false, rm)).
  { unfold Repo.add_repo. now rewrite Hclone. }
  assert (Hrun : forall s0,
             add_custom_repository url (set_repoManager rm s0)
             = (Ret tt, set_repoManager rm s0,
                [call_add_repo url;
                 st_error ("Repository add failed: " ++ url)])).
  { intros s0. unfold add_custom_repository. cbn -[Repo.add_repo].
    rewrite Hadd. reflexivity. }
  split; [exact Hadd|]. split; [apply Hrun|].
  split; [now rewrite Hrun|]. split; [now rewrite Hrun|].
  intros i Hurl Hbtn Hrefresh.
  unfold sidebar_registry. rewrite Hurl, Hbtn, Hrefresh.
  unfold bind at 1.
  change (init_session_state (set_messages l (set_repoManager rm s)))
    with (@Ret unit tt, set_repoManager rm (set_messages l s),
          @nil Event).
  unfold bind at 1. unfold emit at 1.
  unfold bind at 1. unfold when at 1.
  rewrite Hrun. reflexivity.
Qed.

(** ** The cached client *)

Lemma model_recorded_true (s : SessionState) (model : string) :
  model_recorded s model = true ->
  ss_selected_model s = Some (Some model).
Proof.
  unfold model_recorded.
  destruct (ss_selected_model s) as [[m|]|]; try discriminate.
  intros Heq. apply String.eqb_eq in Heq. now subst.
Qed.

Lemma create_app_keeps_client_record (i : Inputs) (s : SessionState) :
  client_matches_record s ->
  client_matches_record (session_of (create_app i s)).
Proof.
  intros Hinv. unfold create_app.
  destruct (prelude_run i s) as (o & rm & l & co & t0 & Hp & _ & Hcases).
  unfold bind. rewrite Hp.
  assert (Hco : forall m,
             ss_selected_model s = Some (Some m) ->
             co = Some (create_client_for_model m)).
  { intros m Hm. specialize (Hinv m Hm).
    destruct Hcases as [(_ & _ & ->) | (_ & _ & ->)];
      [assumption | now rewrite Hinv]. }
  assert (Hkept : client_matches_record
                    (mkSession (Some rm) (Some l) co (ss_selected_model s))).
  { intros m Hm. cbn in *. now apply Hco. }
  destruct Hcases as [(-> & _) | ([(-> & Hex) | (-> & _)] & _ & Hc0)];
    try exact Hkept.
  unfold Repo.check_if_repo_exists in Hex.
  destruct (Repo.get_repo_service (repo_url i) rm) as [repo|] eqn:Hrepo;
    [clear Hex | discriminate].
  rewrite (main_page_run i repo rm l co _ Hrepo).
  destruct (prompt i) as [p|];
    [destruct (String.eqb p EmptyString)|]; try exact Hkept.
  rewrite Hc0 in *.
  rewrite (chat_turn_run i repo p rm l _ (ss_selected_model s)).
  cbn [outcome_of session_of trace_of fst snd].
  intros m Hm. cbn in Hm |- *.
  destruct (model_recorded _ (selected_model i)) eqn:Hrec.
  - specialize (Hco m Hm). now injection Hco as ->.
  - now injection Hm as <-.
Qed.

Lemma reachable_client_record (s : SessionState) :
  reachable s -> client_matches_record s.
Proof.
  induction 1 as [|i s Hreach IH].
  - intros m Hm. discriminate.
  - now apply create_app_keeps_client_record.
Qed.

(** C9 (amended): in a session reached from a fresh one by script runs,
    every model call of a run is issued by the client that
    [create_client_for_model] returns for the model selected in that
    run, and names that model; when ["selected_model"] does not record
    the selection a client is created for it before the call, and when
    it does the client that issues the call is the cached one.  The
    model-change check compares the selection with the model recorded
    under ["selected_model"]: when they are equal the session, and so
    the cached client, is kept and no client is created; otherwise, also
    when nothing is recorded yet, a client is created for the selection
    and both are stored. *)
Theorem C9_client_created_for_selected_model
        (i : Inputs) (s : SessionState) :
  reachable s ->
  (forall c msgs t m,
      In (call_client_chat c msgs t m) (trace_of (create_app i s)) ->
      c = create_client_for_model (selected_model i)
      /\ m = selected_model i
      /\ exists pre post,
          trace_of (create_app i s)
          = pre ++ call_client_chat c msgs t m :: post
          /\ (model_recorded s (selected_model i) = false ->
              In (call_create_client_for_model (selected_model i)) pre)
          /\ (model_recorded s (selected_model i) = true ->
              ss_client s = Some c))
  /\ (forall s',
        sync_client i s'
        = if model_recorded s' (selected_model i)
          then (Ret tt, s', [])
          else (Ret tt,
                set_selected_model (Some (selected_model i))
                  (set_client (create_client_for_model (selected_model i))
                              s'),
                [call_create_client_for_model (selected_model i)])).
Proof.
  intros Hreach. split; [|apply sync_client_run].
  intros c msgs t m Hin.
  destruct (chat_call_inversion i s c msgs t m Hin)
    as (rm & repo & p & pre & _ & _ & _ & Hc & _ & _ & Hm & Hrun & _ & Hnew).
  assert (Hcached : model_recorded s (selected_model i) = true ->
                    ss_client s
                    = Some (create_client_for_model (selected_model i))).
  { intros Hrec. apply model_recorded_true in Hrec.
    apply reachable_client_record in Hreach. now apply Hreach. }
  assert (Hcreated : c = create_client_for_model (selected_model i)).
  { destruct (model_recorded s (selected_model i)); [|exact Hc].
    now rewrite Hcached in Hc. }
  split; [exact Hcreated|]. split; [exact Hm|].
  rewrite Hrun. eexists. eexists. split; [reflexivity|].
  split; [exact Hnew|].
  intros Hrec. rewrite Hcreated. now apply Hcached.
Qed.
End ScriptFacts.

(** * Concrete runs *)
Section ConcreteRuns.
Import App Scenario.

Ltac find_event := vm_compute; repeat (first [left; reflexivity | right]).

Lemma first_call_in_trace :
  In first_call (trace_of (create_app first_turn fresh_session)).
Proof. find_event. Defined.

Lemma C4_streamed_text_is_concatenation_witness :
  In first_call (trace_of (create_app first_turn fresh_session))
  /\ exists pre history,
       trace_of (create_app first_turn fresh_session)
       = pre ++ first_call
             :: map container_markdown
                  (rendered_texts EmptyString ["Hel"; "lo"; "!"])
       /\ ss_messages (session_of (create_app first_turn fresh_session))
          = Some (history
                  ++ [ {| role := "assistant"; content := "Hello!" |} ]).
Proof.
  split; [exact first_call_in_trace|].
  exact (proj2 (proj2 (@C4_streamed_text_is_concatenation demo_env))
           first_turn fresh_session "gpt" first_messages 7 "gpt"
           first_call_in_trace).
Defined.

Lemma C5_messages_system_context_history_witness :
  In first_call (trace_of (create_app first_turn fresh_session))
  /\ exists rm repo history,
       ss_repoManager (session_of (create_app first_turn fresh_session))
       = Some rm
       /\ Repo.get_repo_service (Some demo_url) rm = Some repo
       /\ first_messages
          = [ {| role := "system";
                 content := "You are a helpful assistant." |} ]
            ++ [ {| role := "user";
                    content :=
                      Repo.get_filtered_files
                        (fun p => ("# " ++ p ++ ": ")%string) repo
                        [] [] ["python"] 100000 |} ]
            ++ history
       /\ ss_messages (session_of (create_app first_turn fresh_session))
          = Some (history
                  ++ [ {| role := "assistant"; content := "Hello!" |} ]).
Proof.
  split; [exact first_call_in_trace|].
  exact (@C5_messages_system_context_history demo_env
           first_turn fresh_session "gpt" first_messages 7 "gpt"
           first_call_in_trace).
Defined.

Lemma C10_prompt_is_last_message_sent_witness :
  In first_call (trace_of (create_app first_turn fresh_session))
  /\ exists p earlier,
       Some "hi" = Some p
       /\ p <> EmptyString
       /\ earlier = []
       /\ skipn 2 first_messages
          = earlier ++ [ {| role := "user"; content := p |} ]
       /\ last first_messages
               {| role := "system";
                  content := "You are a helpful assistant." |}
          = {| role := "user"; content := p |}
       /\ ss_messages (session_of (create_app first_turn fresh_session))
          = Some ((earlier ++ [ {| role := "user"; content := p |} ])
                  ++ [ {| role := "assistant"; content := "Hello!" |} ]).
Proof.
  split; [exact first_call_in_trace|].
  exact (@C10_prompt_is_last_message_sent demo_env
           first_turn fresh_session "gpt" first_messages 7 "gpt"
           first_call_in_trace).
Defined.

Lemma C6_unknown_repository_stops_the_run_witness :
  sidebar_registry stale_turn fresh_session
  = (Ret tt, set_messages [] (set_repoManager demo_registry fresh_session),
     [call_RepoManager; st_title "Settings for Repo"])
  /\ Repo.check_if_repo_exists (Some gone_url) demo_registry = false
  /\ outcome_of (create_app stale_turn fresh_session) = Halted Stop
  /\ (exists before text,
        trace_of (create_app stale_turn fresh_session)
        = before ++ [st_info text])
  /\ forallb (fun e => negb (is_chat_call e || is_context_call e))
             (trace_of (create_app stale_turn fresh_session)) = true
  /\ ss_messages (session_of (create_app stale_turn fresh_session))
     = Some [].
Proof.
  assert (Hreg : sidebar_registry stale_turn fresh_session
                 = (Ret tt,
                    set_messages []
                      (set_repoManager demo_registry fresh_session),
                    [call_RepoManager; st_title "Settings for Repo"]))
    by reflexivity.
  assert (Hcheck : Repo.check_if_repo_exists (Some gone_url) demo_registry
                   = false) by reflexivity.
  split; [exact Hreg|]. split; [exact Hcheck|].
  exact (@C6_unknown_repository_stops_the_run demo_env stale_turn
           fresh_session _ _ demo_registry Hreg eq_refl Hcheck).
Defined.

Lemma C7_failed_add_leaves_registry_witness :
  @git_clone demo_env "bad" = None
  /\ Repo.add_repo (@git_clone demo_env) "bad" demo_registry
     = (false, demo_registry).
Proof.
  assert (Hclone : @git_clone demo_env "bad" = None) by reflexivity.
  split; [exact Hclone|].
  exact (proj1 (@C7_failed_add_leaves_registry demo_env "bad"
                  demo_registry [] fresh_session Hclone)).
Defined.

Lemma C9_client_created_for_selected_model_witness :
  reachable after_first_turn
  /\ forall c msgs t m,
       In (@call_client_chat demo_env c msgs t m)
          (trace_of (create_app second_turn after_first_turn)) ->
       c = "claude" /\ m = "claude".
Proof.
  assert (Hreach : reachable after_first_turn)
    by (apply reachable_run, reachable_fresh).
  split; [exact Hreach|].
  intros c msgs t m Hin.
  destruct (proj1 (@C9_client_created_for_selected_model demo_env
                     second_turn after_first_turn Hreach) c msgs t m Hin)
    as (Hc & Hm & _).
  exact (conj Hc Hm).
Defined.

(** C9 as stated fails on the first turn of a session: the client that
    line 103 cached was created for the selected model ["gpt"], yet the
    model-change check, finding no model recorded, creates another
    client for ["gpt"]; the run creates two clients. *)
Lemma C9_cached_client_not_reused :
  ss_client (session_of (prelude first_turn fresh_session))
  = Some (@create_client_for_model demo_env "gpt")
  /\ ~ reuses_cached_client first_turn
         (session_of (prelude first_turn fresh_session))
  /\ filter is_client_creation
        (trace_of (create_app first_turn fresh_session))
     = [call_create_client_for_model "gpt";
        call_create_client_for_model "gpt"].
Proof.
  split; [reflexivity|]. split; [|reflexivity].
  intros Hreuse.
  destruct (Hreuse "gpt" eq_refl eq_refl) as [Htrace _].
  vm_compute in Htrace. discriminate.
Qed.
End ConcreteRuns.

(** * Whole runs of the script *)
Section RunFacts.
Import App.
Context {E : Env}.

Lemma sidebar_registry_shape (i : Inputs) (s : SessionState) :
  exists rm t,
    sidebar_registry i s
    = (Ret tt,
       set_repoManager rm (set_messages (history_of (ss_messages s)) s), t)
    /\ forallb is_repo_sidebar_event t = true.
Proof.
  unfold sidebar_registry, init_session_state, add_custom_repository,
    refresh_repos, Repo.add_repo.
  destruct s as [[rm|] [l|] c sm];
    destruct (btn_add_custom_repository i);
    destruct (btn_refresh_repositories i);
    cbn;
    try destruct (git_clone (custom_repo_url i));
    cbn; eexists; eexists; split; reflexivity.
Qed.

Lemma sidebar_repo_shape (i : Inputs) (s : SessionState)
      (rm : Repo.RepoManager) :
  ss_repoManager s = Some rm ->
  exists o rm' t,
    sidebar_repo i s = (o, set_repoManager rm' s, t)
    /\ forallb is_repo_sidebar_event t = true
    /\ ((o = Ret tt /\ rm' = rm)
        \/ (o = Halted Rerun
            /\ (btn_update_repo i || btn_delete_repo i) = true
            /\ Repo.check_if_repo_exists (repo_url i) rm = true)).
Proof.
  intros Hrm. destruct s as [rmo l c sm]. simpl in Hrm. subst rmo.
  unfold sidebar_repo, Repo.check_if_repo_exists, count_tokens,
    update_repo_clicked, delete_repo_clicked, refresh_repos,
    Repo.update_repo, Repo.delete_repo.
  cbn.
  destruct (Repo.get_repo_service (repo_url i) rm) as [repo|]; cbn.
  - destruct (btn_count_tokens i), (btn_update_repo i),
      (btn_delete_repo i); cbn;
      try destruct (git_pull repo); try destruct (remove_clone repo);
      cbn; eexists; eexists; eexists;
      (split; [reflexivity|]);
      (split; [reflexivity|]);
      first [left; split; reflexivity
            | right; repeat split; reflexivity].
  - exists (Ret tt), rm, []. repeat split; auto.
Qed.

(** The lines before the page, with their trace: either one of the
    repository buttons reruns the script, or the run reaches the guards
    with the history kept or cleared and a client in place. *)
Lemma prelude_shape (i : Inputs) (s : SessionState) :
  exists rm t12,
    forallb is_repo_sidebar_event t12 = true
    /\ ((prelude i s
         = (Halted Rerun,
            mkSession (Some rm) (Some (history_of (ss_messages s)))
                      (ss_client s) (ss_selected_model s),
            t12)
         /\ (btn_update_repo i || btn_delete_repo i) = true)
        \/ prelude i s
           = (if Repo.isEmpty rm
              then (Halted Stop,
                    mkSession (Some rm) (Some (kept_history i s))
                              (Some (page_client i s)) (ss_selected_model s),
                    t12 ++ llm_events i s
                    ++ [st_info "Copy the repository URL and click the download button."])
              else if Repo.check_if_repo_exists (repo_url i) rm
                   then (Ret tt,
                         mkSession (Some rm) (Some (kept_history i s))
                                   (Some (page_client i s))
                                   (ss_selected_model s),
                         t12 ++ llm_events i s)
                   else (Halted Stop,
                         mkSession (Some rm) (Some (kept_history i s))
                                   (Some (page_client i s))
                                   (ss_selected_model s),
                         t12 ++ llm_events i s
                         ++ [st_info (py_str (repo_url i)
                                      ++ " does not exist. Please add the repository first.")]))).
Proof.
  destruct (sidebar_registry_shape i s) as (rm1 & t1 & H1 & Hq1).
  destruct s as [rmo lo co0 smo]. cbn in *.
  match type of H1 with
  | _ = (_, ?s1, _) =>
      destruct (sidebar_repo_shape i s1 rm1 eq_refl)
        as (o2 & rm2 & t2 & H2 & Hq2 & Ho2)
  end.
  exists rm2, (t1 ++ t2).
  split; [now rewrite forallb_app, Hq1, Hq2|].
  destruct Ho2 as [[-> ->] | (-> & Hbtn & _)].
  - right. unfold prelude.
    unfold bind at 1. rewrite H1.
    unfold bind at 1. rewrite H2.
    unfold bind at 1. rewrite sidebar_llm_run.
    unfold bind at 1. rewrite init_client_run.
    cbv beta iota.
    match goal with
    | |- context [existence_guards i ?s0] =>
        rewrite (existence_guards_run i s0 rm1)
          by (cbn; destruct co0, (btn_clear_chat i); reflexivity)
    end.
    unfold kept_history, page_client, llm_events.
    destruct (Repo.isEmpty rm1);
      [|destruct (Repo.check_if_repo_exists (repo_url i) rm1)];
      destruct co0 as [c|], (btn_clear_chat i); cbn;
      rewrite <- ?app_assoc; cbn; rewrite ?app_nil_r; reflexivity.
  - left. split; [|exact Hbtn].
    unfold prelude.
    unfold bind at 1. rewrite H1.
    unfold bind at 1. rewrite H2. reflexivity.
Qed.

(** The four ways a run can go: rerun from a repository button, stop at
    a guard, draw the page only, or draw the page and take a chat turn. *)
Lemma create_app_cases (i : Inputs) (s : SessionState) :
  exists rm t12,
    forallb is_repo_sidebar_event t12 = true
    /\ let s0 := mkSession (Some rm) (Some (kept_history i s))
                           (Some (page_client i s)) (ss_selected_model s) in
       (create_app i s
        = (Halted Rerun,
           mkSession (Some rm) (Some (history_of (ss_messages s)))
                     (ss_client s) (ss_selected_model s),
           t12)
        /\ (btn_update_repo i || btn_delete_repo i) = true)
       \/ (exists text,
              create_app i s
              = (Halted Stop, s0, t12 ++ llm_events i s ++ [st_info text])
              /\ (Repo.isEmpty rm = true
                  \/ Repo.check_if_repo_exists (repo_url i) rm = false))
       \/ (exists repo,
              Repo.get_repo_service (repo_url i) rm = Some repo
              /\ ((prompt_submitted i = false
                   /\ create_app i s
                      = (Ret tt, s0,
                         t12 ++ llm_events i s
                         ++ page_events i repo (kept_history i s)))
                  \/ (exists p,
                         prompt i = Some p
                         /\ p <> EmptyString
                         /\ create_app i s
                            = (Ret tt, session_of (chat_turn i repo p s0),
                               t12 ++ llm_events i s
                               ++ page_events i repo (kept_history i s)
                               ++ trace_of (chat_turn i repo p s0))))).
Proof.
  destruct (prelude_shape i s) as (rm & t12 & Hq & [[Hp Hbtn] | Hp]).
  - exists rm, t12. split; [exact Hq|]. left.
    unfold create_app, bind. rewrite Hp. now split.
  - exists rm, t12. split; [exact Hq|]. right.
    destruct (Repo.isEmpty rm) eqn:Hempty.
    { left. eexists. unfold create_app, bind. rewrite Hp.
      split; [reflexivity | now left]. }
    destruct (Repo.check_if_repo_exists (repo_url i) rm) eqn:Hex.
    2:{ left. eexists. unfold create_app, bind. rewrite Hp.
        split; [reflexivity | now right]. }
    right.
    unfold Repo.check_if_repo_exists in Hex.
    destruct (Repo.get_repo_service (repo_url i) rm) as [repo|] eqn:Hrepo;
      [clear Hex | discriminate].
    exists repo. split; [reflexivity|].
    unfold create_app, bind. rewrite Hp.
    rewrite (main_page_run i repo rm _ _ _ Hrepo).
    fold (page_events i repo (kept_history i s)).
    unfold prompt_submitted.
    destruct (prompt i) as [p|];
      [destruct (String.eqb p EmptyString) eqn:Hp0|].
    + left. split; [reflexivity|]. now rewrite <- app_assoc.
    + right. exists p. split; [reflexivity|].
      split; [intros ->; discriminate|].
      match goal with
      | |- (outcome_of ?r, _, _) = _ =>
          assert (Hout : outcome_of r = Ret tt)
            by (rewrite chat_turn_run; reflexivity);
          rewrite Hout
      end.
      now rewrite <- !app_assoc.
    + left. split; [reflexivity|]. now rewrite <- app_assoc.
Qed.

Lemma filter_none (P Q : Event -> bool) (l : list Event) :
  (forall e, Q e = true -> P e = false) ->
  forallb Q l = true ->
  filter P l = [].
Proof.
  intros HPQ. induction l as [|e l IH]; [reflexivity|].
  simpl. intros Hall. apply andb_true_iff in Hall. destruct Hall as [He Hl].
  rewrite (HPQ e He). now apply IH.
Qed.

Lemma page_events_are_page_events (i : Inputs) (repo : Repo.RepoService)
      (history : list Message) :
  forallb is_page_event (page_events i repo history) = true.
Proof.
  unfold page_events. rewrite forallb_app. simpl.
  induction history as [|m history IH]; [reflexivity | exact IH].
Qed.

Lemma chat_turn_session (i : Inputs) (repo : Repo.RepoService) (p : string)
      (rm : Repo.RepoManager) (l : list Message) (c : Client)
      (sm : option (option string)) :
  exists reply c',
    session_of (chat_turn i repo p (mkSession (Some rm) (Some l) (Some c) sm))
    = mkSession (Some rm)
        (Some ((l ++ [ {| role := "user"; content := p |} ])
               ++ [ {| role := "assistant"; content := reply |} ]))
        (Some c')
        (if model_recorded (mkSession (Some rm) (Some l) (Some c) sm)
                           (selected_model i)
         then sm else Some (Some (selected_model i))).
Proof. rewrite chat_turn_run. eexists. eexists. reflexivity. Qed.

Lemma refresh_repos_reads_no_absent_key (s : SessionState) :
  is_key_error (outcome_of (refresh_repos s)) = false.
Proof.
  unfold refresh_repos. now destruct s as [[rm|] l c sm].
Qed.

(** X1: no run of [create_app] and no call of [refresh_repos], from any
    session state, fails on an absent session key: each key is stored
    before it is read. *)
Theorem create_app_reads_no_absent_key (i : Inputs) (s : SessionState) :
  is_key_error (outcome_of (create_app i s)) = false
  /\ is_key_error (outcome_of (refresh_repos s)) = false.
Proof.
  split; [|apply refresh_repos_reads_no_absent_key].
  destruct (create_app_cases i s)
    as (rm & t12 & _ &
        [[Hrun _] | [(text & Hrun & _)
                    | (repo & _ & [[_ Hrun] | (p & _ & _ & Hrun)])]]);
    now rewrite Hrun.
Qed.

(** X2: a run that reaches [st.stop()] or the end of the script leaves
    the keys ["repoManager"], ["messages"] and ["client"] present; a run
    that ends with [st.rerun()] leaves ["repoManager"] and ["messages"]
    present. *)
Theorem create_app_initialises_keys (i : Inputs) (s : SessionState) :
  (outcome_of (create_app i s) = Ret tt
   \/ outcome_of (create_app i s) = Halted Stop ->
   is_absent (ss_repoManager (session_of (create_app i s))) = false
   /\ is_absent (ss_messages (session_of (create_app i s))) = false
   /\ is_absent (ss_client (session_of (create_app i s))) = false)
  /\ (outcome_of (create_app i s) = Halted Rerun ->
      is_absent (ss_repoManager (session_of (create_app i s))) = false
      /\ is_absent (ss_messages (session_of (create_app i s))) = false).
Proof.
  destruct (create_app_cases i s)
    as (rm & t12 & _ &
        [[Hrun _] | [(text & Hrun & _)
                    | (repo & _ & [[_ Hrun] | (p & _ & _ & Hrun)])]]);
    rewrite Hrun; cbn [session_of outcome_of fst snd].
  - split; [intros [Ho | Ho]; discriminate | now intros _].
  - split; [now intros _ | discriminate].
  - split; [now intros _ | discriminate].
  - destruct (chat_turn_session i repo p rm (kept_history i s)
                (page_client i s) (ss_selected_model s))
      as (reply & c' & ->).
    split; [now intros _ | discriminate].
Qed.

(** X3: a run in which no prompt is submitted leaves the recorded model
    and a cached client as they were.  When it ends with [st.rerun()]
    the history is as it was; when it reaches [st.stop()] or the end of
    the script the history is as it was if Clear Chat was not pressed,
    and empty if it was. *)
Theorem run_without_prompt_keeps_chat_state
        (i : Inputs) (s : SessionState) :
  prompt_submitted i = false ->
  ss_selected_model (session_of (create_app i s)) = ss_selected_model s
  /\ (forall c, ss_client s = Some c ->
                ss_client (session_of (create_app i s)) = Some c)
  /\ (outcome_of (create_app i s) = Halted Rerun ->
      ss_messages (session_of (create_app i s))
      = Some (history_of (ss_messages s)))
  /\ (outcome_of (create_app i s) = Ret tt
      \/ outcome_of (create_app i s) = Halted Stop ->
      ss_messages (session_of (create_app i s))
      = Some (if btn_clear_chat i then []
              else history_of (ss_messages s))).
Proof.
  intros Hprompt.
  assert (Hclient : forall c, ss_client s = Some c ->
                              Some (page_client i s) = Some c).
  { intros c Hc. unfold page_client. now rewrite Hc. }
  destruct (create_app_cases i s)
    as (rm & t12 & _ &
        [[Hrun _] | [(text & Hrun & _)
                    | (repo & _ & [[_ Hrun] | (p & Hp & Hp0 & _)])]]);
    try (rewrite Hrun;
         cbn [session_of outcome_of fst snd ss_selected_model ss_client
                ss_messages]).
  - split; [reflexivity|]. split; [now intros c Hc|].
    split; [reflexivity | intros [Ho | Ho]; discriminate].
  - split; [reflexivity|]. split; [exact Hclient|].
    split; [discriminate | now intros _].
  - split; [reflexivity|]. split; [exact Hclient|].
    split; [discriminate | now intros _].
  - unfold prompt_submitted in Hprompt. rewrite Hp in Hprompt.
    apply negb_false_iff, String.eqb_eq in Hprompt. contradiction.
Qed.

(** The events of a run that satisfy [P], when neither the repository
    sidebar, nor the page head, nor an info box can: none on a rerun,
    those of lines 88-103 when no turn is taken, and those followed by the
    turn's otherwise. *)
Lemma run_filter (P : Event -> bool) (i : Inputs) (s : SessionState) :
  (forall e, is_repo_sidebar_event e = true -> P e = false) ->
  (forall e, is_page_event e = true -> P e = false) ->
  (forall text, P (st_info text) = false) ->
  (outcome_of (create_app i s) = Halted Rerun
   /\ filter P (trace_of (create_app i s)) = [])
  \/ ((outcome_of (create_app i s) = Halted Stop
       \/ (outcome_of (create_app i s) = Ret tt
           /\ prompt_submitted i = false))
      /\ filter P (trace_of (create_app i s)) = filter P (llm_events i s))
  \/ (exists rm repo p,
         prompt i = Some p
         /\ p <> EmptyString
         /\ Repo.get_repo_service (repo_url i) rm = Some repo
         /\ outcome_of (create_app i s) = Ret tt
         /\ session_of (create_app i s)
            = session_of
                (chat_turn i repo p
                   (mkSession (Some rm) (Some (kept_history i s))
                      (Some (page_client i s)) (ss_selected_model s)))
         /\ filter P (trace_of (create_app i s))
            = filter P (llm_events i s)
              ++ filter P
                   (trace_of
                      (chat_turn i repo p
                         (mkSession (Some rm) (Some (kept_history i s))
                            (Some (page_client i s))
                            (ss_selected_model s))))).
Proof.
  intros Hside Hpage Hinfo.
  destruct (create_app_cases i s)
    as (rm & t12 & Hq &
        [[Hrun _] | [(text & Hrun & _)
                    | (repo & Hrepo & [[Hp Hrun] | (p & Hp & Hp0 & Hrun)])]]);
    rewrite Hrun; cbn [outcome_of session_of trace_of fst snd];
    rewrite ?filter_app, (filter_none P _ t12 Hside Hq),
      ?(filter_none P _ _ Hpage (page_events_are_page_events _ _ _)).
  - left. now split.
  - right. left. split; [now left|].
    cbn. rewrite Hinfo. now rewrite app_nil_r.
  - right. left. split; [now right|]. now rewrite app_nil_r.
  - right. right. exists rm, repo, p. repeat split; assumption || reflexivity.
Qed.

Lemma chat_turn_filter_chat_calls (i : Inputs) (repo : Repo.RepoService)
      (p : string) (s0 : SessionState) (rm : Repo.RepoManager)
      (l : list Message) (c : Client) (sm : option (option string)) :
  s0 = mkSession (Some rm) (Some l) (Some c) sm ->
  exists c' msgs,
    filter is_chat_call (trace_of (chat_turn i repo p s0))
    = [call_client_chat c' msgs (temperature i) (selected_model i)].
Proof.
  intros ->. rewrite chat_turn_run. cbn [trace_of snd].
  rewrite !filter_app.
  rewrite (filter_none is_chat_call is_streamed_text
             (map container_markdown _)).
  - destruct (model_recorded _ _); cbn; eexists; eexists; reflexivity.
  - now intros [].
  - induction (rendered_texts _ _) as [|x xs IH]; [reflexivity | exact IH].
Qed.

(** X5: a run calls the model at most once, and not at all when no prompt
    is submitted. *)
Theorem at_most_one_model_call (i : Inputs) (s : SessionState) :
  List.length (filter is_chat_call (trace_of (create_app i s))) <= 1
  /\ (prompt_submitted i = false ->
      filter is_chat_call (trace_of (create_app i s)) = []).
Proof.
  assert (Hllm : filter is_chat_call (llm_events i s) = [])
    by (unfold llm_events; now destruct (ss_client s)).
  destruct (run_filter is_chat_call i s)
    as [[_ Hf] | [[_ Hf] | (rm & repo & p & Hp & Hp0 & _ & _ & _ & Hf)]];
    try (now intros []); try reflexivity;
    rewrite Hf, ?Hllm.
  - split; [simpl; lia | reflexivity].
  - split; [simpl; lia | reflexivity].
  - destruct (chat_turn_filter_chat_calls i repo p _ rm (kept_history i s)
                (page_client i s) (ss_selected_model s) eq_refl)
      as (c' & msgs & ->).
    split; [simpl; lia|].
    unfold prompt_submitted. rewrite Hp. intros Hsub.
    apply negb_false_iff, String.eqb_eq in Hsub. contradiction.
Qed.

Lemma not_in_forallb (Q : Event -> bool) (l : list Event) (e : Event) :
  forallb Q l = true -> Q e = false -> ~ In e l.
Proof.
  intros Hall He Hin. rewrite forallb_forall in Hall.
  specialize (Hall e Hin). congruence.
Qed.

Lemma not_in_llm_events (i : Inputs) (s : SessionState) (e : Event) :
  is_repo_sidebar_event e = false ->
  is_client_creation e = false ->
  ~ In e (llm_events i s).
Proof.
  intros Hside Hnew. unfold llm_events.
  destruct (ss_client s); cbn; intros [<- | Hin]; try discriminate;
    try contradiction.
  destruct Hin as [<- | []]. discriminate.
Qed.

(** The trace of a run that calls the model, event by event. *)
Lemma chat_call_trace (i : Inputs) (s : SessionState) (c : Client)
      (msgs : list Message) (t : Temperature) (m : string) :
  In (call_client_chat c msgs t m) (trace_of (create_app i s)) ->
  exists rm t12 repo p,
    forallb is_repo_sidebar_event t12 = true
    /\ Repo.get_repo_service (repo_url i) rm = Some repo
    /\ prompt i = Some p
    /\ p <> EmptyString
    /\ c = (if model_recorded s (selected_model i) then page_client i s
            else create_client_for_model (selected_model i))
    /\ msgs = assemble_messages (system_prompt i)
                (Repo.get_filtered_files file_header repo
                   (selected_folder i) (selected_files i)
                   (selected_languages i) (limit i))
                (kept_history i s ++ [ {| role := "user"; content := p |} ])
    /\ t = temperature i
    /\ m = selected_model i
    /\ trace_of (create_app i s)
       = t12 ++ llm_events i s ++ page_events i repo (kept_history i s)
         ++ [st_chat_message "user" p]
         ++ (if model_recorded s (selected_model i) then []
             else [call_create_client_for_model (selected_model i)])
         ++ [call_get_filtered_files (Repo.repo_url repo) (selected_folder i)
               (selected_files i) (selected_languages i) (limit i);
             sidebar_write_sending (selected_files i) (selected_folder i);
             sidebar_write_total
               (TokenCount.num_messages Token encode tokens_per_message msgs);
             call_client_chat c msgs t m]
         ++ map container_markdown
              (rendered_texts EmptyString (chat c msgs t m)).
Proof.
  intros Hin.
  destruct (create_app_cases i s)
    as (rm & t12 & Hq &
        [[Hrun _] | [(text & Hrun & _)
                    | (repo & Hrepo & [[_ Hrun] | (p & Hp & Hp0 & Hrun)])]]);
    rewrite Hrun in Hin |- *; cbn [trace_of snd] in Hin |- *.
  - now apply (not_in_forallb _ _ _ Hq) in Hin.
  - apply in_app_or in Hin.
    destruct Hin as [Hin | Hin];
      [now apply (not_in_forallb _ _ _ Hq) in Hin|].
    apply in_app_or in Hin.
    destruct Hin as [Hin | [Hin | []]];
      [now apply not_in_llm_events in Hin | discriminate].
  - apply in_app_or in Hin.
    destruct Hin as [Hin | Hin];
      [now apply (not_in_forallb _ _ _ Hq) in Hin|].
    apply in_app_or in Hin.
    destruct Hin as [Hin | Hin];
      [now apply not_in_llm_events in Hin|].
    now apply (not_in_forallb _ _ _ (page_events_are_page_events _ _ _))
      in Hin.
  - apply in_app_or in Hin.
    destruct Hin as [Hin | Hin];
      [now apply (not_in_forallb _ _ _ Hq) in Hin|].
    apply in_app_or in Hin.
    destruct Hin as [Hin | Hin];
      [now apply not_in_llm_events in Hin|].
    apply in_app_or in Hin.
    destruct Hin as [Hin | Hin];
      [now apply (not_in_forallb _ _ _ (page_events_are_page_events _ _ _))
         in Hin|].
    rewrite chat_turn_run in Hin |- *. cbn [trace_of snd] in Hin |- *.
    change (model_recorded
              (mkSession (Some rm) (Some (kept_history i s))
                 (Some (page_client i s)) (ss_selected_model s))
              (selected_model i))
      with (model_recorded s (selected_model i)) in *.
    apply in_app_or in Hin.
    destruct Hin as [[Hin | []] | Hin]; [discriminate|].
    apply in_app_or in Hin. destruct Hin as [Hin | Hin].
    { destruct (model_recorded s (selected_model i)); cbn in Hin;
        [contradiction | destruct Hin as [Hin | []]; discriminate]. }
    apply in_app_or in Hin. destruct Hin as [Hin | Hin].
    2:{ apply in_map_iff in Hin. destruct Hin as (x & Hx & _).
        discriminate. }
    cbn in Hin.
    destruct Hin as [Hin | [Hin | [Hin | [Hin | []]]]]; try discriminate.
    injection Hin as Hc Hmsgs Ht Hm.
    exists rm, t12, repo, p.
    rewrite <- Hc, <- Hmsgs, <- Ht, <- Hm.
    repeat (split; [assumption || reflexivity|]).
    reflexivity.
Qed.

Lemma move_last_three_out (a b c d e : list Event) (x1 x2 x3 x4 : Event)
      (r : list Event) :
  a ++ b ++ c ++ d ++ e ++ [x1; x2; x3; x4] ++ r
  = (a ++ b ++ c ++ d ++ e ++ [x1]) ++ [x2; x3; x4] ++ r.
Proof. rewrite <- !app_assoc. reflexivity. Qed.

(** X6: the token total written to the sidebar in a chat turn is the
    estimate of the very message list that is sent: the line announcing
    what is sent and the total come right before the model call. *)
Theorem sidebar_total_is_of_the_list_sent
        (i : Inputs) (s : SessionState) (c : Client)
        (msgs : list Message) (t : Temperature) (m : string) :
  In (call_client_chat c msgs t m) (trace_of (create_app i s)) ->
  exists before after,
    trace_of (create_app i s)
    = before
      ++ [sidebar_write_sending (selected_files i) (selected_folder i);
          sidebar_write_total
            (TokenCount.num_messages Token encode tokens_per_message msgs);
          call_client_chat c msgs t m]
      ++ after.
Proof.
  intros Hin.
  destruct (chat_call_trace i s c msgs t m Hin)
    as (rm & t12 & repo & p & _ & _ & _ & _ & _ & _ & _ & _ & Htrace).
  rewrite Htrace, move_last_three_out.
  eexists. eexists. reflexivity.
Qed.

Lemma rendered_texts_are_prefixes (completion : list string) (x : string) :
  In x (rendered_texts EmptyString completion) ->
  exists k,
    k < List.length completion
    /\ x = concat_all (firstn (S k) completion).
Proof.
  unfold rendered_texts. intros Hin.
  apply in_map_iff in Hin. destruct Hin as (k0 & Hx & Hk0).
  apply in_seq in Hk0.
  destruct k0 as [|k]; [lia|].
  exists k. split; [lia | now rewrite <- Hx].
Qed.

(** X7: whatever is rendered into the assistant's placeholder is the
    concatenation of a non-empty initial segment of the increments of a
    model call made in the same run. *)
Theorem streamed_text_is_a_completion_prefix
        (i : Inputs) (s : SessionState) (shown : string) :
  In (container_markdown shown) (trace_of (create_app i s)) ->
  exists c msgs t m k,
    In (call_client_chat c msgs t m) (trace_of (create_app i s))
    /\ k < List.length (chat c msgs t m)
    /\ shown = concat_all (firstn (S k) (chat c msgs t m)).
Proof.
  intros Hin.
  destruct (create_app_cases i s)
    as (rm & t12 & Hq &
        [[Hrun _] | [(text & Hrun & _)
                    | (repo & Hrepo & [[_ Hrun] | (p & Hp & Hp0 & Hrun)])]]);
    rewrite Hrun in Hin |- *; cbn [trace_of snd] in Hin |- *.
  - now apply (not_in_forallb _ _ _ Hq) in Hin.
  - apply in_app_or in Hin.
    destruct Hin as [Hin | Hin];
      [now apply (not_in_forallb _ _ _ Hq) in Hin|].
    apply in_app_or in Hin.
    destruct Hin as [Hin | [Hin | []]];
      [now apply not_in_llm_events in Hin | discriminate].
  - apply in_app_or in Hin.
    destruct Hin as [Hin | Hin];
      [now apply (not_in_forallb _ _ _ Hq) in Hin|].
    apply in_app_or in Hin.
    destruct Hin as [Hin | Hin];
      [now apply not_in_llm_events in Hin|].
    now apply (not_in_forallb _ _ _ (page_events_are_page_events _ _ _))
      in Hin.
  - apply in_app_or in Hin.
    destruct Hin as [Hin | Hin];
      [now apply (not_in_forallb _ _ _ Hq) in Hin|].
    apply in_app_or in Hin.
    destruct Hin as [Hin | Hin];
      [now apply not_in_llm_events in Hin|].
    apply in_app_or in Hin.
    destruct Hin as [Hin | Hin];
      [now apply (not_in_forallb _ _ _ (page_events_are_page_events _ _ _))
         in Hin|].
    rewrite chat_turn_run in Hin |- *. cbn [trace_of snd] in Hin |- *.
    apply in_app_or in Hin.
    destruct Hin as [[Hin | []] | Hin]; [discriminate|].
    apply in_app_or in Hin. destruct Hin as [Hin | Hin].
    { destruct (model_recorded _ (selected_model i)); cbn in Hin;
        [contradiction | destruct Hin as [Hin | []]; discriminate]. }
    apply in_app_or in Hin. destruct Hin as [Hin | Hin].
    { cbn in Hin.
      destruct Hin as [Hin | [Hin | [Hin | [Hin | []]]]]; discriminate. }
    apply in_map_iff in Hin. destruct Hin as (x & Hx & Hin).
    injection Hx as ->.
    apply rendered_texts_are_prefixes in Hin. destruct Hin as (k & Hk & Hshown).
    do 4 eexists. exists k.
    split; [|split; [exact Hk | exact Hshown]].
    do 5 (apply in_or_app; right).
    apply in_or_app. left. cbn. auto.
Qed.

Lemma sidebar_creates_no_client (e : Event) :
  is_repo_sidebar_event e = true -> is_client_creation e = false.
Proof. now destruct e. Qed.

Lemma page_creates_no_client (e : Event) :
  is_page_event e = true -> is_client_creation e = false.
Proof. now destruct e. Qed.

Lemma streaming_creates_no_client (l : list string) :
  filter is_client_creation (map container_markdown l) = [].
Proof. induction l as [|x l IH]; [reflexivity | exact IH]. Qed.

Lemma quiet_run_creates_no_client
      (i : Inputs) (s : SessionState) (c0 : Client) :
  ss_client s = Some c0 ->
  prompt_submitted i = false
  \/ model_recorded s (selected_model i) = true ->
  filter is_client_creation (trace_of (create_app i s)) = [].
Proof.
  intros Hc0 Hquiet.
  assert (Hllm : filter is_client_creation (llm_events i s) = [])
    by (unfold llm_events; now rewrite Hc0).
  destruct (run_filter is_client_creation i s sidebar_creates_no_client
              page_creates_no_client (fun _ => eq_refl))
    as [[_ Hf] | [[_ Hf] | (rm & repo & p & Hp & Hp0 & _ & _ & _ & Hf)]];
    rewrite Hf, ?Hllm; try reflexivity.
  destruct Hquiet as [Hsub | Hrec].
  - unfold prompt_submitted in Hsub. rewrite Hp in Hsub.
    apply negb_false_iff, String.eqb_eq in Hsub. contradiction.
  - rewrite chat_turn_run. cbn [trace_of snd].
    change (model_recorded
              (mkSession (Some rm) (Some (kept_history i s))
                 (Some (page_client i s)) (ss_selected_model s))
              (selected_model i))
      with (model_recorded s (selected_model i)).
    rewrite Hrec, !filter_app, streaming_creates_no_client. reflexivity.
Qed.

(** X8: a run started with a client in the session creates no client
    when no prompt is submitted or when ["selected_model"] already
    records the selection, and exactly one, for the selection, when it
    calls the model with a selection that is not recorded. *)
Theorem client_creations_of_a_run
        (i : Inputs) (s : SessionState) (c0 : Client) :
  ss_client s = Some c0 ->
  (prompt_submitted i = false
   \/ model_recorded s (selected_model i) = true ->
   filter is_client_creation (trace_of (create_app i s)) = [])
  /\ (forall c msgs t m,
        In (call_client_chat c msgs t m) (trace_of (create_app i s)) ->
        model_recorded s (selected_model i) = false ->
        filter is_client_creation (trace_of (create_app i s))
        = [call_create_client_for_model (selected_model i)]).
Proof.
  intros Hc0. split; [now apply quiet_run_creates_no_client with c0|].
  intros c msgs t m Hin Hrec.
  assert (Hllm : filter is_client_creation (llm_events i s) = [])
    by (unfold llm_events; now rewrite Hc0).
  destruct (chat_call_trace i s c msgs t m Hin)
    as (rm & t12 & repo & p & Hq & _ & _ & _ & _ & _ & _ & _ & Htrace).
  rewrite Htrace, Hrec, !filter_app, streaming_creates_no_client, Hllm.
  rewrite (filter_none _ _ t12 sidebar_creates_no_client Hq).
  rewrite (filter_none _ _ _ page_creates_no_client
             (page_events_are_page_events _ _ _)).
  reflexivity.
Qed.

(** X9: a run that reaches the page redraws its head and then the stored
    conversation, one chat message per stored message in order (none
    after Clear Chat); nothing follows when no prompt is submitted. *)
Theorem page_replays_history (i : Inputs) (s : SessionState) :
  outcome_of (create_app i s) = Ret tt ->
  exists before repo after,
    trace_of (create_app i s)
    = before
      ++ ([st_title ("Repo: " ++ Repo.repo_name repo);
           st_write "Chat with LLM using the repository information and files. You can change model settings anytime during the chat.";
           st_info_selection (selected_files i) (selected_folder i)
             (selected_languages i) (limit i)]
          ++ map (fun msg => st_chat_message (role msg) (content msg))
                 (kept_history i s))
      ++ after
    /\ (prompt_submitted i = false -> after = []).
Proof.
  intros Hret.
  destruct (create_app_cases i s)
    as (rm & t12 & Hq &
        [[Hrun _] | [(text & Hrun & _)
                    | (repo & Hrepo & [[Hsub Hrun] | (p & Hp & Hp0 & Hrun)])]]);
    rewrite Hrun in Hret |- *; try discriminate;
    cbn [trace_of snd].
  - exists (t12 ++ llm_events i s), repo, [].
    split; [|reflexivity].
    unfold page_events. now rewrite app_nil_r, <- !app_assoc.
  - exists (t12 ++ llm_events i s), repo. eexists.
    split; [unfold page_events; rewrite <- !app_assoc; reflexivity|].
    unfold prompt_submitted. rewrite Hp. intros Hsub.
    apply negb_false_iff, String.eqb_eq in Hsub. contradiction.
Qed.

(** ** The repository buttons *)

Lemma sidebar_repo_update (i : Inputs) (s : SessionState)
      (rm : Repo.RepoManager) (repo : Repo.RepoService) :
  ss_repoManager s = Some rm ->
  Repo.get_repo_service (repo_url i) rm = Some repo ->
  btn_update_repo i = true ->
  sidebar_repo i s
  = (Halted Rerun,
     set_repoManager (snd (Repo.update_repo git_pull repo rm)) s,
     count_tokens_events i repo
     ++ [call_update_repo (Repo.repo_url repo);
         if fst (Repo.update_repo git_pull repo rm)
         then st_success ("Updated repository: " ++ py_str (repo_url i))
         else st_error ("Repository update failed: " ++ py_str (repo_url i))]).
Proof.
  intros Hrm Hrepo Hbtn. destruct s as [rmo l c sm]. simpl in Hrm. subst rmo.
  unfold sidebar_repo, Repo.check_if_repo_exists, count_tokens,
    update_repo_clicked, count_tokens_events, Repo.update_repo.
  cbn. rewrite Hrepo, Hbtn. cbn.
  destruct (btn_count_tokens i), (git_pull repo); reflexivity.
Qed.

Lemma sidebar_repo_delete (i : Inputs) (s : SessionState)
      (rm : Repo.RepoManager) (repo : Repo.RepoService) :
  ss_repoManager s = Some rm ->
  Repo.get_repo_service (repo_url i) rm = Some repo ->
  btn_update_repo i = false ->
  btn_delete_repo i = true ->
  sidebar_repo i s
  = (Halted Rerun,
     set_repoManager
       (load_repos (snd (Repo.delete_repo remove_clone repo rm))) s,
     count_tokens_events i repo
     ++ [call_delete_repo (Repo.repo_url repo);
         if fst (Repo.delete_repo remove_clone repo rm)
         then st_success ("Deleted repository: " ++ py_str (repo_url i))
         else st_error ("Repository delete failed: " ++ py_str (repo_url i));
         call_load_repos;
         st_success "Refreshed repositories"]).
Proof.
  intros Hrm Hrepo Hupd Hdel.
  destruct s as [rmo l c sm]. simpl in Hrm. subst rmo.
  unfold sidebar_repo, Repo.check_if_repo_exists, count_tokens,
    delete_repo_clicked, refresh_repos, count_tokens_events,
    Repo.delete_repo.
  cbn. rewrite Hrepo, Hupd, Hdel. cbn.
  destruct (btn_count_tokens i), (remove_clone repo); reflexivity.
Qed.

Lemma run_stops_in_sidebar_repo (i : Inputs) (s s1 s2 : SessionState)
      (t1 t2 : list Event) (h : Halt) :
  sidebar_registry i s = (Ret tt, s1, t1) ->
  sidebar_repo i s1 = (Halted h, s2, t2) ->
  create_app i s = (Halted h, s2, t1 ++ t2).
Proof.
  intros Hreg Hrepo. unfold create_app, prelude.
  unfold bind at 1. unfold bind at 1. rewrite Hreg.
  unfold bind at 1. rewrite Hrepo. reflexivity.
Qed.

(** X10: Update Repo, pressed for a registered repository, ends the run
    with [st.rerun()] right after the outcome of the update is shown:
    nothing below it runs, so a Delete Repo, a Clear Chat or a prompt of
    the same run has no effect, and the history, the client and the
    recorded model are untouched. *)
Theorem update_repo_reruns
        (i : Inputs) (s s1 : SessionState) (t1 : list Event)
        (rm : Repo.RepoManager) (repo : Repo.RepoService) :
  sidebar_registry i s = (Ret tt, s1, t1) ->
  ss_repoManager s1 = Some rm ->
  Repo.get_repo_service (repo_url i) rm = Some repo ->
  btn_update_repo i = true ->
  outcome_of (create_app i s) = Halted Rerun
  /\ trace_of (create_app i s)
     = t1 ++ count_tokens_events i repo
       ++ [call_update_repo (Repo.repo_url repo);
           if fst (Repo.update_repo git_pull repo rm)
           then st_success ("Updated repository: " ++ py_str (repo_url i))
           else st_error
                  ("Repository update failed: " ++ py_str (repo_url i))]
  /\ ss_messages (session_of (create_app i s))
     = Some (history_of (ss_messages s))
  /\ ss_client (session_of (create_app i s)) = ss_client s
  /\ ss_selected_model (session_of (create_app i s)) = ss_selected_model s.
Proof.
  intros Hreg Hrm Hrepo Hbtn.
  rewrite (run_stops_in_sidebar_repo i s s1 _ t1 _ Rerun Hreg
             (sidebar_repo_update i s1 rm repo Hrm Hrepo Hbtn)).
  destruct (sidebar_registry_shape i s) as (rm1 & t1' & H1 & _).
  rewrite Hreg in H1. injection H1 as -> _.
  repeat split.
Qed.

(** X11: Delete Repo, pressed alone for a registered repository, shows
    the outcome of the deletion and then, whether it succeeded or not,
    reloads the registry with [load_repos], reports the refresh and ends
    the run with [st.rerun()]; the chat keys are untouched. *)
Theorem delete_repo_refreshes_and_reruns
        (i : Inputs) (s s1 : SessionState) (t1 : list Event)
        (rm : Repo.RepoManager) (repo : Repo.RepoService) :
  sidebar_registry i s = (Ret tt, s1, t1) ->
  ss_repoManager s1 = Some rm ->
  Repo.get_repo_service (repo_url i) rm = Some repo ->
  btn_update_repo i = false ->
  btn_delete_repo i = true ->
  outcome_of (create_app i s) = Halted Rerun
  /\ trace_of (create_app i s)
     = t1 ++ count_tokens_events i repo
       ++ [call_delete_repo (Repo.repo_url repo);
           if fst (Repo.delete_repo remove_clone repo rm)
           then st_success ("Deleted repository: " ++ py_str (repo_url i))
           else st_error
                  ("Repository delete failed: " ++ py_str (repo_url i));
           call_load_repos;
           st_success "Refreshed repositories"]
  /\ ss_repoManager (session_of (create_app i s))
     = Some (load_repos (snd (Repo.delete_repo remove_clone repo rm)))
  /\ ss_messages (session_of (create_app i s))
     = Some (history_of (ss_messages s))
  /\ ss_client (session_of (create_app i s)) = ss_client s
  /\ ss_selected_model (session_of (create_app i s)) = ss_selected_model s.
Proof.
  intros Hreg Hrm Hrepo Hupd Hdel.
  rewrite (run_stops_in_sidebar_repo i s s1 _ t1 _ Rerun Hreg
             (sidebar_repo_delete i s1 rm repo Hrm Hrepo Hupd Hdel)).
  destruct (sidebar_registry_shape i s) as (rm1 & t1' & H1 & _).
  rewrite Hreg in H1. injection H1 as -> _.
  repeat split.
Qed.

(** X12: Refresh Repositories, pressed alone, replaces the registry by
    what [load_repos] makes of it, calling it once; the registry object
    is constructed only when the session did not hold one, and then once:
    the key test inside [refresh_repos] never fires after line 30. *)
Theorem refresh_button_reloads_registry (i : Inputs) (s : SessionState) :
  btn_add_custom_repository i = false ->
  btn_refresh_repositories i = true ->
  sidebar_registry i s
  = (Ret tt,
     set_repoManager
       (load_repos match ss_repoManager s with
                   | Some rm => rm
                   | None => new_RepoManager
                   end)
       (set_messages (history_of (ss_messages s)) s),
     (if is_absent (ss_repoManager s) then [call_RepoManager] else [])
     ++ [st_title "Settings for Repo"; call_load_repos;
         st_success "Refreshed repositories"]).
Proof.
  intros Hadd Hrefresh.
  unfold sidebar_registry, init_session_state, refresh_repos.
  rewrite Hadd, Hrefresh.
  destruct s as [[rm|] [l|] c sm]; reflexivity.
Qed.

(** ** The handler on any text, and in batches *)

Lemma bind_assoc {A B C} (m : Script A) (k : A -> Script B)
      (g : B -> Script C) (s : SessionState) :
  bind (bind m k) g s = bind m (fun x => bind (k x) g) s.
Proof.
  unfold bind.
  destruct (m s) as [[[a|h] s1] t1]; [|reflexivity].
  destruct (k a s1) as [[[b|h] s2] t2]; [|reflexivity].
  destruct (g b s2) as [[o s3] t3]. now rewrite app_assoc.
Qed.

Lemma bind_after_ret {A B} (m : Script A) (k : A -> Script B)
      (s s1 : SessionState) (a : A) (t1 : list Event) :
  m s = (Ret a, s1, t1) ->
  bind m k s
  = (outcome_of (k a s1), session_of (k a s1), t1 ++ trace_of (k a s1)).
Proof.
  intros Hm. unfold bind. rewrite Hm.
  now destruct (k a s1) as [[o s2] t2].
Qed.

Lemma process_token_run (h : StreamHandler) (token : string)
      (s : SessionState) :
  process_token h token s
  = (Ret {| container := Some (text h ++ token)%string;
            text := (text h ++ token)%string |},
     s, [container_markdown (text h ++ token)]).
Proof. reflexivity. Qed.

(** X13: consuming a completion in two batches is consuming it at once;
    from any handler the loop ends with the handler's text extended by
    all increments, the session untouched, one rendering per increment,
    and the placeholder showing the handler's text unless nothing was
    consumed. *)
Theorem consume_in_batches
        (h : StreamHandler) (first_batch second_batch : list string)
        (s : SessionState) :
  consume h (first_batch ++ second_batch) s
  = bind (consume h first_batch) (fun h' => consume h' second_batch) s
  /\ exists h',
       consume h (first_batch ++ second_batch) s
       = (Ret h', s,
          map container_markdown
              (rendered_texts (text h) first_batch
               ++ rendered_texts (text h ++ concat_all first_batch)
                                 second_batch))
       /\ text h'
          = (text h ++ concat_all first_batch ++ concat_all second_batch)%string
       /\ container h'
          = match first_batch ++ second_batch with
            | [] => container h
            | _ :: _ => Some (text h')
            end.
Proof.
  assert (Hsplit : consume h (first_batch ++ second_batch) s
                   = bind (consume h first_batch)
                          (fun h' => consume h' second_batch) s).
  { revert h. induction first_batch as [|token rest IH]; intros h.
    - simpl. unfold bind, ret.
      now destruct (consume h second_batch s) as [[o s'] t].
    - simpl consume. rewrite bind_assoc.
      rewrite !(bind_after_ret _ _ _ _ _ _ (process_token_run h token s)).
      now rewrite IH. }
  split; [exact Hsplit|].
  rewrite Hsplit. unfold bind. rewrite !consume_run. cbn [text container].
  eexists. split; [now rewrite map_app|].
  split.
  - cbn [text]. now rewrite string_app_assoc.
  - cbn [container text].
    destruct first_batch as [|a l1], second_batch as [|b l2]; cbn;
      rewrite ?string_app_empty_r, ?string_app_assoc; reflexivity.
Qed.

(** ** The shape of the history *)

Lemma alternates_app (l2 : list Message) :
  forall n l1,
    List.length l1 <= n ->
    alternates l1 = true ->
    alternates (l1 ++ l2) = alternates l2.
Proof.
  induction n as [|n IH]; intros l1 Hlen Halt.
  - destruct l1; [reflexivity | simpl in Hlen; lia].
  - destruct l1 as [|u [|a rest]]; [reflexivity | discriminate |].
    simpl in Halt |- *.
    apply andb_true_iff in Halt. destruct Halt as [Hroles Hrest].
    rewrite Hroles. simpl.
    apply IH; [simpl in Hlen; lia | assumption].
Qed.

Lemma alternates_even (l : list Message) :
  forall n,
    List.length l <= n ->
    alternates l = true ->
    Nat.even (List.length l) = true.
Proof.
  intros n. revert l. induction n as [|n IH]; intros l Hlen Halt.
  - destruct l; [reflexivity | simpl in Hlen; lia].
  - destruct l as [|u [|a rest]]; [reflexivity | discriminate |].
    simpl in Halt.
    apply andb_true_iff in Halt. destruct Halt as [_ Hrest].
    change (Nat.even (List.length rest) = true).
    apply IH; [simpl in Hlen; lia | assumption].
Qed.

Lemma create_app_keeps_alternation (i : Inputs) (s : SessionState) :
  alternates (history_of (ss_messages s)) = true ->
  alternates (history_of (ss_messages (session_of (create_app i s)))) = true.
Proof.
  intros Halt.
  assert (Hkept : alternates (kept_history i s) = true)
    by (unfold kept_history; now destruct (btn_clear_chat i)).
  destruct (create_app_cases i s)
    as (rm & t12 & _ &
        [[Hrun _] | [(text & Hrun & _)
                    | (repo & _ & [[_ Hrun] | (p & _ & _ & Hrun)])]]);
    rewrite Hrun; cbn [session_of fst snd ss_messages history_of];
    try assumption.
  rewrite chat_turn_run. cbn [session_of fst snd ss_messages history_of].
  rewrite <- app_assoc.
  now rewrite (alternates_app _ _ (kept_history i s) (Nat.le_refl _) Hkept).
Qed.

(** X14: in every session reached from a fresh one the history is a
    sequence of exchanges, each a user message followed by an assistant
    message; in particular its length is even. *)
Theorem reachable_history_alternates (s : SessionState) :
  reachable s ->
  alternates (history_of (ss_messages s)) = true
  /\ Nat.even (List.length (history_of (ss_messages s))) = true.
Proof.
  intros Hreach.
  assert (Halt : alternates (history_of (ss_messages s)) = true).
  { induction Hreach as [|i s Hreach IH]; [reflexivity|].
    now apply create_app_keeps_alternation. }
  split; [exact Halt|].
  now apply (alternates_even _ _ (Nat.le_refl _)).
Qed.

(** ** Consecutive runs *)

(** X15: when a run calls the model and a later run on the session it
    leaves calls it again without Clear Chat, the history part of the
    second list is the history part of the first followed by the first
    reply and the new prompt. *)
Theorem next_turn_extends_the_list_sent
        (i1 i2 : Inputs) (s : SessionState)
        (c1 c2 : Client) (msgs1 msgs2 : list Message)
        (t1 t2 : Temperature) (m1 m2 : string) :
  In (call_client_chat c1 msgs1 t1 m1) (trace_of (create_app i1 s)) ->
  btn_clear_chat i2 = false ->
  In (call_client_chat c2 msgs2 t2 m2)
     (trace_of (create_app i2 (session_of (create_app i1 s)))) ->
  exists p2,
    prompt i2 = Some p2
    /\ skipn 2 msgs2
       = skipn 2 msgs1
         ++ [ {| role := "assistant";
                 content := concat_all (chat c1 msgs1 t1 m1) |};
              {| role := "user"; content := p2 |} ].
Proof.
  intros Hin1 Hclear Hin2.
  destruct (chat_call_inversion i1 s c1 msgs1 t1 m1 Hin1)
    as (rm1 & repo1 & p1 & pre1 & _ & _ & _ & _ & Hmsgs1 & _ & _ & Hrun1 & _).
  rewrite Hrun1 in Hin2. cbn [session_of fst snd] in Hin2.
  destruct (chat_call_trace i2 _ c2 msgs2 t2 m2 Hin2)
    as (rm2 & t12 & repo2 & p2 & _ & _ & Hp2 & _ & _ & Hmsgs2 & _).
  exists p2. split; [exact Hp2|].
  rewrite Hmsgs2, Hmsgs1. unfold kept_history. rewrite Hclear.
  cbn [ss_messages history_of assemble_messages skipn app].
  now rewrite <- app_assoc.
Qed.

(** X16: a run that calls the model leaves the selected model recorded
    and the client that made the call cached, so that a later run with
    the same model selected creates no client. *)
Theorem turn_records_model_and_client
        (i : Inputs) (s : SessionState) (c : Client)
        (msgs : list Message) (t : Temperature) (m : string) :
  In (call_client_chat c msgs t m) (trace_of (create_app i s)) ->
  ss_selected_model (session_of (create_app i s))
  = Some (Some (selected_model i))
  /\ ss_client (session_of (create_app i s)) = Some c
  /\ (forall i2,
        selected_model i2 = selected_model i ->
        filter is_client_creation
               (trace_of (create_app i2 (session_of (create_app i s))))
        = []).
Proof.
  intros Hin.
  destruct (chat_call_inversion i s c msgs t m Hin)
    as (rm & repo & p & pre & _ & _ & _ & _ & _ & _ & _ & Hrun & _).
  rewrite Hrun. cbn [session_of fst snd ss_selected_model ss_client].
  assert (Hrec : (if model_recorded s (selected_model i)
                  then ss_selected_model s
                  else Some (Some (selected_model i)))
                 = Some (Some (selected_model i))).
  { destruct (model_recorded s (selected_model i)) eqn:Hrec;
      [now apply model_recorded_true | reflexivity]. }
  split; [exact Hrec|]. split; [reflexivity|].
  intros i2 Hsame.
  apply quiet_run_creates_no_client with c; [reflexivity|].
  right. unfold model_recorded at 1. cbn [ss_selected_model].
  rewrite Hrec, Hsame. apply String.eqb_refl.
Qed.

(** ** The history across runs *)

Lemma turn_history (i : Inputs) (s : SessionState) (c : Client)
      (msgs : list Message) (t : Temperature) (m : string) :
  In (call_client_chat c msgs t m) (trace_of (create_app i s)) ->
  exists p,
    prompt i = Some p
    /\ ss_messages (session_of (create_app i s))
       = Some (kept_history i s
               ++ [ {| role := "user"; content := p |};
                    {| role := "assistant";
                       content := concat_all (chat c msgs t m) |} ]).
Proof.
  intros Hin.
  destruct (chat_call_inversion i s c msgs t m Hin)
    as (rm & repo & p & pre & _ & Hp & _ & _ & _ & _ & _ & Hrun & _).
  exists p. split; [exact Hp|].
  rewrite Hrun. cbn [session_of fst snd ss_messages].
  unfold kept_history. now rewrite <- app_assoc.
Qed.

(** C3: a sequence of runs on one session that each take a chat turn
    appends, run after run, the prompt as a user message and then the
    reply as an assistant message: the history after the last run is the
    history before the first followed by exactly these messages in
    insertion order, so its length grows by their number, two per run.
    A single run that calls the model leaves the kept history followed
    by its prompt and its reply.  A run in which Clear Chat is pressed
    and no prompt is submitted, and which reaches [st.stop()] or the end
    of the script, leaves a history of length 0. *)
Theorem C3_turns_append_in_order_and_clear_empties :
  (forall (s : SessionState) (runs : list Inputs) (appended : list Message)
          (s' : SessionState),
      chat_turns s runs appended s' ->
      s' = run_all runs s
      /\ history_of (ss_messages s')
         = history_of (ss_messages s) ++ appended
      /\ List.length (history_of (ss_messages s'))
         = List.length (history_of (ss_messages s)) + List.length appended
      /\ List.length appended = 2 * List.length runs)
  /\ (forall (i : Inputs) (s : SessionState) (c : Client)
             (msgs : list Message) (t : Temperature) (m : string),
        In (call_client_chat c msgs t m) (trace_of (create_app i s)) ->
        exists p,
          prompt i = Some p
          /\ ss_messages (session_of (create_app i s))
             = Some ((if btn_clear_chat i then []
                      else history_of (ss_messages s))
                     ++ [ {| role := "user"; content := p |};
                          {| role := "assistant";
                             content := concat_all (chat c msgs t m) |} ]))
  /\ (forall (i : Inputs) (s : SessionState),
        btn_clear_chat i = true ->
        prompt_submitted i = false ->
        outcome_of (create_app i s) = Ret tt
        \/ outcome_of (create_app i s) = Halted Stop ->
        ss_messages (session_of (create_app i s)) = Some []
        /\ List.length
             (history_of (ss_messages (session_of (create_app i s)))) = 0).
Proof.
  split; [|split].
  - intros s runs appended s' Hturns.
    induction Hturns
      as [s | s i p c msgs t m rest appended s' Hclear Hp Hin Hrest IH].
    + split; [reflexivity|]. split; [now rewrite app_nil_r|].
      split; [cbn [List.length]; lia | reflexivity].
    + destruct IH as (Hs' & Hhist & _ & Hlen).
      destruct (turn_history i s c msgs t m Hin) as (p' & Hp' & Hmsgs).
      rewrite Hp in Hp'. injection Hp' as <-.
      unfold kept_history in Hmsgs. rewrite Hclear in Hmsgs.
      rewrite Hmsgs in Hhist. cbn [history_of] in Hhist.
      rewrite <- app_assoc in Hhist. cbn [app] in Hhist.
      split; [exact Hs'|]. split; [exact Hhist|].
      split; [now rewrite Hhist, length_app|].
      cbn [List.length]. lia.
  - intros i s c msgs t m Hin. exact (turn_history i s c msgs t m Hin).
  - intros i s Hclear Hprompt Hout.
    assert (Hkept : kept_history i s = [])
      by (unfold kept_history; now rewrite Hclear).
    destruct (create_app_cases i s)
      as (rm & t12 & _ &
          [[Hrun _] | [(text & Hrun & _)
                      | (repo & _ & [[_ Hrun] | (p & Hp & Hp0 & _)])]]).
    + rewrite Hrun in Hout. destruct Hout as [Ho | Ho]; discriminate.
    + rewrite Hrun. cbn [session_of fst snd ss_messages history_of].
      now rewrite Hkept.
    + rewrite Hrun. cbn [session_of fst snd ss_messages history_of].
      now rewrite Hkept.
    + unfold prompt_submitted in Hprompt. rewrite Hp in Hprompt.
      apply negb_false_iff, String.eqb_eq in Hprompt. contradiction.
Qed.
End RunFacts.

(** * More concrete runs *)
Section MoreConcreteRuns.
Import App Scenario.

Ltac locate_event := vm_compute; repeat (first [left; reflexivity | right]).

Lemma second_call_in_trace :
  In second_call (trace_of (create_app second_turn after_first_turn)).
Proof. locate_event. Defined.

Lemma C3_turns_append_in_order_and_clear_empties_witness :
  chat_turns fresh_session [first_turn; second_turn] two_exchanges
             (run_all [first_turn; second_turn] fresh_session)
  /\ history_of
       (ss_messages (run_all [first_turn; second_turn] fresh_session))
     = two_exchanges
  /\ List.length two_exchanges = 4
  /\ btn_clear_chat press_clear = true
  /\ prompt_submitted press_clear = false
  /\ outcome_of (create_app press_clear after_first_turn) = Ret tt
  /\ ss_messages (session_of (create_app press_clear after_first_turn))
     = Some [].
Proof.
  assert (Hturns : chat_turns fresh_session [first_turn; second_turn]
                     two_exchanges
                     (run_all [first_turn; second_turn] fresh_session)).
  { apply (chat_turns_cons fresh_session first_turn "hi" "gpt"
             first_messages 7 "gpt" [second_turn] _ _ eq_refl eq_refl
             first_call_in_trace).
    apply (chat_turns_cons _ second_turn "and now?" "claude"
             second_messages 7 "claude" [] [] _ eq_refl eq_refl
             second_call_in_trace).
    apply chat_turns_nil. }
  assert (Hret : outcome_of (create_app press_clear after_first_turn)
                 = Ret tt) by reflexivity.
  destruct (proj1 (@C3_turns_append_in_order_and_clear_empties demo_env)
              _ _ _ _ Hturns) as (_ & Hhist & _ & Hlen).
  refine (conj Hturns (conj Hhist (conj Hlen
            (conj eq_refl (conj eq_refl (conj Hret _)))))).
  exact (proj1 (proj2 (proj2
           (@C3_turns_append_in_order_and_clear_empties demo_env))
           press_clear after_first_turn eq_refl eq_refl (or_introl Hret))).
Defined.

Lemma create_app_initialises_keys_witness :
  outcome_of (create_app look fresh_session) = Ret tt
  /\ is_absent (ss_repoManager (session_of (create_app look fresh_session)))
     = false
  /\ is_absent (ss_messages (session_of (create_app look fresh_session)))
     = false
  /\ is_absent (ss_client (session_of (create_app look fresh_session)))
     = false.
Proof.
  assert (Hret : outcome_of (create_app look fresh_session) = Ret tt)
    by reflexivity.
  split; [exact Hret|].
  exact (proj1 (@create_app_initialises_keys demo_env look fresh_session)
           (or_introl Hret)).
Defined.

Lemma run_without_prompt_keeps_chat_state_witness :
  prompt_submitted press_clear = false
  /\ outcome_of (create_app press_clear after_first_turn) = Ret tt
  /\ ss_selected_model (session_of (create_app press_clear after_first_turn))
     = ss_selected_model after_first_turn
  /\ ss_messages (session_of (create_app press_clear after_first_turn))
     = Some [].
Proof.
  assert (Hquiet : prompt_submitted press_clear = false) by reflexivity.
  assert (Hret : outcome_of (create_app press_clear after_first_turn)
                 = Ret tt) by reflexivity.
  destruct (@run_without_prompt_keeps_chat_state demo_env press_clear
              after_first_turn Hquiet) as (Hmodel & _ & _ & Hcleared).
  exact (conj Hquiet (conj Hret (conj Hmodel (Hcleared (or_introl Hret))))).
Defined.

Lemma at_most_one_model_call_witness :
  prompt_submitted look = false
  /\ filter is_chat_call (trace_of (create_app look after_first_turn)) = [].
Proof.
  assert (Hquiet : prompt_submitted look = false) by reflexivity.
  split; [exact Hquiet|].
  exact (proj2 (@at_most_one_model_call demo_env look after_first_turn)
           Hquiet).
Defined.

Lemma sidebar_total_is_of_the_list_sent_witness :
  In first_call (trace_of (create_app first_turn fresh_session))
  /\ exists before after,
       trace_of (create_app first_turn fresh_session)
       = before
         ++ [sidebar_write_sending [] [];
             sidebar_write_total
               (TokenCount.num_messages (@Token demo_env) (@encode demo_env)
                  (@tokens_per_message demo_env) first_messages);
             first_call]
         ++ after.
Proof.
  split; [exact first_call_in_trace|].
  exact (@sidebar_total_is_of_the_list_sent demo_env first_turn
           fresh_session "gpt" first_messages 7 "gpt" first_call_in_trace).
Defined.

Lemma streamed_text_is_a_completion_prefix_witness :
  In (@container_markdown demo_env "Hello")
     (trace_of (create_app first_turn fresh_session))
  /\ exists c msgs t m k,
       In (@call_client_chat demo_env c msgs t m)
          (trace_of (create_app first_turn fresh_session))
       /\ k < List.length (@chat demo_env c msgs t m)
       /\ "Hello" = concat_all (firstn (S k) (@chat demo_env c msgs t m)).
Proof.
  assert (Hin : In (@container_markdown demo_env "Hello")
                   (trace_of (create_app first_turn fresh_session)))
    by locate_event.
  split; [exact Hin|].
  exact (@streamed_text_is_a_completion_prefix demo_env first_turn
           fresh_session "Hello" Hin).
Defined.

Lemma client_creations_of_a_run_witness :
  ss_client after_first_turn = Some "gpt"
  /\ In second_call (trace_of (create_app second_turn after_first_turn))
  /\ model_recorded after_first_turn "claude" = false
  /\ filter is_client_creation
        (trace_of (create_app second_turn after_first_turn))
     = [call_create_client_for_model "claude"].
Proof.
  assert (Hclient : ss_client after_first_turn = Some "gpt") by reflexivity.
  assert (Hrec : model_recorded after_first_turn "claude" = false)
    by reflexivity.
  refine (conj Hclient (conj second_call_in_trace (conj Hrec _))).
  exact (proj2 (@client_creations_of_a_run demo_env second_turn
                  after_first_turn "gpt" Hclient)
           "claude" second_messages 7 "claude" second_call_in_trace Hrec).
Defined.

Lemma page_replays_history_witness :
  outcome_of (create_app look after_first_turn) = Ret tt
  /\ exists before repo after,
       trace_of (create_app look after_first_turn)
       = before
         ++ ([st_title ("Repo: " ++ Repo.repo_name repo);
              st_write "Chat with LLM using the repository information and files. You can change model settings anytime during the chat.";
              st_info_selection [] [] ["python"] 100000]
             ++ map (fun msg => st_chat_message (role msg) (content msg))
                    (kept_history look after_first_turn))
         ++ after
       /\ (prompt_submitted look = false -> after = []).
Proof.
  assert (Hret : outcome_of (create_app look after_first_turn) = Ret tt)
    by reflexivity.
  split; [exact Hret|].
  exact (@page_replays_history demo_env look after_first_turn Hret).
Defined.

Lemma update_repo_reruns_witness :
  sidebar_registry (press false true false) fresh_session
  = (Ret tt, seeded_session, seeded_trace)
  /\ Repo.get_repo_service (Some demo_url) demo_registry = Some demo_repo
  /\ outcome_of (create_app (press false true false) fresh_session)
     = Halted Rerun.
Proof.
  assert (Hreg : sidebar_registry (press false true false) fresh_session
                 = (Ret tt, seeded_session, seeded_trace)) by reflexivity.
  assert (Hrepo : Repo.get_repo_service (Some demo_url) demo_registry
                  = Some demo_repo) by reflexivity.
  refine (conj Hreg (conj Hrepo _)).
  exact (proj1 (@update_repo_reruns demo_env (press false true false)
                  fresh_session seeded_session seeded_trace demo_registry
                  demo_repo Hreg eq_refl Hrepo eq_refl)).
Defined.

Lemma delete_repo_refreshes_and_reruns_witness :
  sidebar_registry (press false false true) fresh_session
  = (Ret tt, seeded_session, seeded_trace)
  /\ Repo.get_repo_service (Some demo_url) demo_registry = Some demo_repo
  /\ outcome_of (create_app (press false false true) fresh_session)
     = Halted Rerun.
Proof.
  assert (Hreg : sidebar_registry (press false false true) fresh_session
                 = (Ret tt, seeded_session, seeded_trace)) by reflexivity.
  assert (Hrepo : Repo.get_repo_service (Some demo_url) demo_registry
                  = Some demo_repo) by reflexivity.
  refine (conj Hreg (conj Hrepo _)).
  exact (proj1 (@delete_repo_refreshes_and_reruns demo_env
                  (press false false true) fresh_session seeded_session
                  seeded_trace demo_registry demo_repo Hreg eq_refl Hrepo
                  eq_refl eq_refl)).
Defined.

Lemma refresh_button_reloads_registry_witness :
  btn_add_custom_repository (press true false false) = false
  /\ btn_refresh_repositories (press true false false) = true
  /\ sidebar_registry (press true false false) fresh_session
     = (Ret tt, seeded_session,
        [call_RepoManager; st_title "Settings for Repo"; call_load_repos;
         st_success "Refreshed repositories"]).
Proof.
  refine (conj eq_refl (conj eq_refl _)).
  exact (@refresh_button_reloads_registry demo_env (press true false false)
           fresh_session eq_refl eq_refl).
Defined.

Lemma reachable_history_alternates_witness :
  reachable after_first_turn
  /\ alternates (history_of (ss_messages after_first_turn)) = true
  /\ Nat.even (List.length (history_of (ss_messages after_first_turn)))
     = true.
Proof.
  assert (Hreach : reachable after_first_turn)
    by (apply reachable_run, reachable_fresh).
  split; [exact Hreach|].
  exact (@reachable_history_alternates demo_env after_first_turn Hreach).
Defined.

Lemma next_turn_extends_the_list_sent_witness :
  In first_call (trace_of (create_app first_turn fresh_session))
  /\ btn_clear_chat second_turn = false
  /\ In second_call (trace_of (create_app second_turn after_first_turn))
  /\ exists p2,
       prompt second_turn = Some p2
       /\ skipn 2 second_messages
          = skipn 2 first_messages
            ++ [ {| role := "assistant"; content := "Hello!" |};
                 {| role := "user"; content := p2 |} ].
Proof.
  refine (conj first_call_in_trace
            (conj eq_refl (conj second_call_in_trace _))).
  exact (@next_turn_extends_the_list_sent demo_env first_turn second_turn
           fresh_session "gpt" "claude" first_messages second_messages
           7 7 "gpt" "claude" first_call_in_trace eq_refl
           second_call_in_trace).
Defined.

Lemma turn_records_model_and_client_witness :
  In first_call (trace_of (create_app first_turn fresh_session))
  /\ ss_selected_model after_first_turn = Some (Some "gpt")
  /\ ss_client after_first_turn = Some "gpt".
Proof.
  split; [exact first_call_in_trace|].
  destruct (@turn_records_model_and_client demo_env first_turn
              fresh_session "gpt" first_messages 7 "gpt"
              first_call_in_trace) as (Hmodel & Hclient & _).
  exact (conj Hmodel Hclient).
Defined.
End MoreConcreteRuns.
